(** * Ontology metrics toolkit: the classification engine of [main.py]

    A shallow embedding of the functions of [src/main.py] that decide which
    resources of an RDF graph are classes or individuals, how the statements
    about them are split into object and data/annotation properties, and how
    the counts are aggregated into the per-document record.

    Conventions of the embedding:
    - an rdflib term is a [term]; a graph is the list of its triples in the
      order in which the store iterates them; [triples] is the pattern query
      [g.triples((s, p, o))];
    - a Python [dict] is a [gmap], a Python [set] is a [gset];
    - exceptions are the [Raise] results of the monad [res];
    - [print] appends a line to a list of lines;
    - a Python [float] obtained by true division of two integers is the
      exact rational of which it is the rounding (rounding keeps the sign
      and keeps zero), the integer [0] of the guarded branches is [0%Q]. *)

From Stdlib Require Import QArith Ascii String.
From stdpp Require Import gmap strings list fin_maps fin_sets.

Set Warnings "-clear-no-such-hyp".
Close Scope Q_scope.
Local Open Scope string_scope.

(** ** Terms and graphs *)

(** [URIRef], [BNode] and [Literal] of rdflib.  Two terms are equal when they
    are of the same class and have the same text (and, for literals, the same
    language and datatype). *)
Inductive term :=
  | URIRef (iri : string)
  | BNode (id : string)
  | Literal (lexical : string) (lang : option string) (datatype : option string).

#[global] Instance term_eq_dec : EqDecision term.
Proof. solve_decision. Defined.

#[global] Instance term_countable : Countable term.
Proof.
  refine (inj_countable'
    (λ t, match t with
          | URIRef s => inl s
          | BNode s => inr (inl s)
          | Literal s l d => inr (inr (s, l, d))
          end)
    (λ e, match e with
          | inl s => URIRef s
          | inr (inl s) => BNode s
          | inr (inr (s, l, d)) => Literal s l d
          end) _).
  by intros [].
Defined.

(** [str(t)] *)
Definition str (t : term) : string :=
  match t with
  | URIRef s => s
  | BNode s => s
  | Literal s _ _ => s
  end.

(** [isinstance(t, URIRef)], [isinstance(t, BNode)], [isinstance(t, Literal)] *)
Definition isinstance_URIRef (t : term) : bool :=
  match t with URIRef _ => true | _ => false end.
Definition isinstance_BNode (t : term) : bool :=
  match t with BNode _ => true | _ => false end.
Definition isinstance_Literal (t : term) : bool :=
  match t with Literal _ _ _ => true | _ => false end.

Record triple := Triple { subj : term; pred : term; obj : term }.

#[global] Instance triple_eq_dec : EqDecision triple.
Proof. solve_decision. Defined.

(** A graph: its triples in the order of iteration of the store. *)
Abbreviation graph := (list triple).

(** One position of a pattern: [None] is the wildcard. *)
Definition matches (pat : option term) (t : term) : bool :=
  match pat with
  | None => true
  | Some x => bool_decide (t = x)
  end.

(** [g.triples((s, p, o))] *)
Definition triples (s p o : option term) (g : graph) : list triple :=
  filter (λ t, matches s (subj t) && matches p (pred t) && matches o (obj t)) g.

(** ** Vocabulary *)

Module RDF.
Definition ns := "http://www.w3.org/1999/02/22-rdf-syntax-ns#".
Definition type := URIRef (ns ++ "type").
Definition Property := URIRef (ns ++ "Property").
End RDF.

Module RDFS.
Definition ns := "http://www.w3.org/2000/01/rdf-schema#".
Definition Class := URIRef (ns ++ "Class").
Definition subClassOf := URIRef (ns ++ "subClassOf").
Definition Datatype := URIRef (ns ++ "Datatype").
Definition Resource := URIRef (ns ++ "Resource").
Definition Literal := URIRef (ns ++ "Literal").
End RDFS.

Module OWL.
Definition ns := "http://www.w3.org/2002/07/owl#".
Definition Class := URIRef (ns ++ "Class").
Definition Ontology := URIRef (ns ++ "Ontology").
Definition Restriction := URIRef (ns ++ "Restriction").
Definition DeprecatedClass := URIRef (ns ++ "DeprecatedClass").
Definition ObjectProperty := URIRef (ns ++ "ObjectProperty").
Definition TransitiveProperty := URIRef (ns ++ "TransitiveProperty").
Definition DatatypeProperty := URIRef (ns ++ "DatatypeProperty").
Definition FunctionalProperty := URIRef (ns ++ "FunctionalProperty").
Definition DeprecatedProperty := URIRef (ns ++ "DeprecatedProperty").
Definition Thing := URIRef (ns ++ "Thing").
Definition Nothing := URIRef (ns ++ "Nothing").
Definition AnnotationProperty := URIRef (ns ++ "AnnotationProperty").
Definition SymmetricProperty := URIRef (ns ++ "SymmetricProperty").
Definition InverseFunctionalProperty := URIRef (ns ++ "InverseFunctionalProperty").
Definition NamedIndividual := URIRef (ns ++ "NamedIndividual").
Definition onDatatype := URIRef (ns ++ "onDatatype").
End OWL.

Definition XSD : string := "http://www.w3.org/2001/XMLSchema#".
Definition RDF_CLASS : term := URIRef "http://www.w3.org/1999/02/22-rdf-syntax-ns#Class".

(** [x in S] for a set literal [S] of the source, kept as the list of its
    elements. *)
Definition py_in (x : term) (S : list term) : bool := bool_decide (x ∈ S).

(** ** [identify_classes] *)

(** The value stored for a class: the one-entry dict [{"type": ...}]. *)
Record class_info := ClassInfo { type : string }.

Definition OWL_EXCLUDES : list term :=
  [ OWL.Ontology; OWL.Restriction; OWL.DeprecatedClass; OWL.ObjectProperty;
    OWL.TransitiveProperty; OWL.DatatypeProperty; OWL.FunctionalProperty;
    OWL.DeprecatedProperty; OWL.Thing; OWL.Nothing; OWL.AnnotationProperty;
    OWL.SymmetricProperty; OWL.InverseFunctionalProperty ].

Definition ADDITIONAL_EXCLUDES : list term :=
  [ URIRef "http://www.w3.org/2000/01/rdf-schema#Class";
    URIRef "http://www.w3.org/2002/07/owl#Class";
    URIRef "http://www.w3.org/1999/02/22-rdf-syntax-ns#Property" ].

Definition explicit_owl : class_info := ClassInfo "explicit (RDF.type OWL.Class)".
Definition explicit_rdfs : class_info := ClassInfo "explicit (RDF.type RDFS.Class)".
Definition explicit_rdf : class_info := ClassInfo "explicit (RDF.type rdf:Class)".
Definition inferred : class_info := ClassInfo "inferred (Turtle 'a')".

(** Body of the loops 1 to 3: [if s not in ADDITIONAL_EXCLUDES: classes[s] = v]. *)
Definition explicit_step (v : class_info)
    (classes : gmap term class_info) (t : triple) : gmap term class_info :=
  if negb (py_in (subj t) ADDITIONAL_EXCLUDES) then <[subj t := v]> classes
  else classes.

(** The test of loop 4 that makes it [continue]. *)
Definition skipped_type (o : term) : bool :=
  py_in o OWL_EXCLUDES
  || py_in o ADDITIONAL_EXCLUDES
  || String.prefix XSD (str o)
  || py_in o [RDFS.Datatype; RDFS.Resource; RDFS.Literal].

(** Body of loop 4. *)
Definition inferred_step
    (classes : gmap term class_info) (t : triple) : gmap term class_info :=
  if bool_decide (obj t ∉ dom classes) then
    if skipped_type (obj t) then classes
    else <[obj t := inferred]> classes
  else classes.

(** Body of the last loop: [if isinstance(cls, BNode): del classes[cls]]. *)
Definition drop_bnode_step
    (classes : gmap term class_info) (cls : term) : gmap term class_info :=
  if isinstance_BNode cls then delete cls classes else classes.

Definition identify_classes (g : graph) : gmap term class_info :=
  let classes : gmap term class_info := ∅ in
  let classes :=
    foldl (explicit_step explicit_owl) classes
      (triples None (Some RDF.type) (Some OWL.Class) g) in
  let classes :=
    foldl (explicit_step explicit_rdfs) classes
      (triples None (Some RDF.type) (Some RDFS.Class) g) in
  let classes :=
    foldl (explicit_step explicit_rdf) classes
      (triples None (Some RDF.type) (Some RDF_CLASS) g) in
  let classes :=
    foldl inferred_step classes (triples None (Some RDF.type) None g) in
  foldl drop_bnode_step classes (map_to_list classes).*1.

(** ** Exceptions *)

(** The exceptions that the modelled code can raise.  [External] stands for
    whatever the parser or the file system raises, with its message. *)
Inductive exn :=
  | External (msg : string)
  | KeyError (k : term)
  | ZeroDivisionError
  | ValueError (msg : string).

Inductive res (A : Type) :=
  | Ok (a : A)
  | Raise (e : exn).
Arguments Ok {A} a.
Arguments Raise {A} e.

#[global] Instance res_ret : MRet res := λ A a, Ok a.
#[global] Instance res_bind : MBind res := λ A B k m,
  match m with
  | Ok a => k a
  | Raise e => Raise e
  end.

(** [repr(t)] *)
Definition repr (t : term) : string :=
  match t with
  | URIRef s => "rdflib.term.URIRef('" ++ s ++ "')"
  | BNode s => "rdflib.term.BNode('" ++ s ++ "')"
  | Literal s _ _ => "rdflib.term.Literal('" ++ s ++ "')"
  end.

(** [str(e)] *)
Definition exn_str (e : exn) : string :=
  match e with
  | External msg => msg
  | KeyError k => repr k
  | ZeroDivisionError => "division by zero"
  | ValueError msg => msg
  end.

(** [a / b] on two non-negative integers. *)
Definition py_truediv (a b : nat) : res Q :=
  if bool_decide (b = 0%nat) then Raise ZeroDivisionError
  else Ok (inject_Z (Z.of_nat a) / inject_Z (Z.of_nat b))%Q.

(** [a / n if n > 0 else 0]: the condition is evaluated first and only the
    chosen branch after it. *)
Definition div_if_positive (a n : nat) : res Q :=
  if bool_decide (0 < n)%nat then py_truediv a n else Ok 0%Q.

(** [{k: f(k, v) for k, v in d.items()}], stopping at the first exception. *)
Definition dict_comprehension {V W} (f : term → V → res W)
    (d : gmap term V) : res (gmap term W) :=
  map_fold (λ k v acc, m ← acc; w ← f k v; Ok (<[k := w]> m)) (Ok ∅) d.

(** [d[k]] *)
Definition getitem {V} (d : gmap term V) (k : term) : res V :=
  match d !! k with
  | Some v => Ok v
  | None => Raise (KeyError k)
  end.

(** ** Property lists of a subject *)

Record props := Props {
  object_properties : list term;
  data_annotation_properties : list term
}.

Definition append_object (p : term) (x : props) : props :=
  Props (object_properties x ++ [p]) (data_annotation_properties x).

Definition append_data (p : term) (x : props) : props :=
  Props (object_properties x) (data_annotation_properties x ++ [p]).

Definition excluded_object_properties : list term :=
  [ URIRef "http://www.w3.org/2000/01/rdf-schema#subClassOf"; RDF.type ].

(** [if s not in d: d[s] = {"object_properties": [], "data_annotation_properties": []}] *)
Definition init_props (s : term) (d : gmap term props) : gmap term props :=
  if bool_decide (s ∉ dom d) then <[s := Props [] []]> d else d.

(** Body of the loop of [list_properties_by_concept]. *)
Definition concept_step (classes : gmap term class_info)
    (concept_properties : gmap term props) (t : triple) : gmap term props :=
  if bool_decide (subj t ∈ dom classes) then
    let concept_properties := init_props (subj t) concept_properties in
    if isinstance_URIRef (obj t) && negb (py_in (pred t) excluded_object_properties)
    then alter (append_object (pred t)) (subj t) concept_properties
    else if negb (isinstance_URIRef (obj t))
            && negb (py_in (pred t) excluded_object_properties)
    then alter (append_data (pred t)) (subj t) concept_properties
    else concept_properties
  else concept_properties.

(** An entry of the dict returned by [list_properties_by_concept]: the
    class type and the two lists. *)
Record concept := Concept {
  concept_type : string;
  concept_props : props
}.

(** [list_properties_by_concept] after the graph is loaded. *)
Definition list_properties_by_concept_graph (g : graph)
    : res (gmap term concept * gmap term class_info) :=
  let classes := identify_classes g in
  let concept_properties :=
    foldl (concept_step classes) ∅ (triples None None None g) in
  d ← dict_comprehension
        (λ concept properties,
           info ← getitem classes concept;
           Ok (Concept (type info)
                 (Props (object_properties properties)
                        (data_annotation_properties properties))))
        concept_properties;
  Ok (d, classes).

(** ** [calculate_totals_and_densities] *)

Record totals := Totals {
  total_object_properties : nat;
  total_data_annotation_properties : nat;
  total_object_properties_unique : nat;
  total_data_annotation_properties_unique : nat;
  property_density : Q;
  object_density : Q;
  data_annotation_density : Q
}.

(** [concept_properties.values()] *)
Definition values {V} (d : gmap term V) : list V := (map_to_list d).*2.

(** The first loop: [add] of every object property, one at a time, and
    [update] with the whole list of data/annotation properties. *)
Definition collect_step (acc : gset term * gset term) (properties : concept)
    : gset term * gset term :=
  let all_object_properties :=
    foldl (λ (s : gset term) prop, {[prop]} ∪ s) acc.1
      (object_properties (concept_props properties)) in
  let all_data_annotation_properties :=
    acc.2 ∪ list_to_set (data_annotation_properties (concept_props properties)) in
  (all_object_properties, all_data_annotation_properties).

(** [sum(len(f(properties)) for properties in d.values())] *)
Definition sum_len (f : props → list term) (d : gmap term concept) : nat :=
  sum_list ((λ properties, length (f (concept_props properties))) <$> values d).

Definition calculate_totals_and_densities
    (concept_properties : gmap term concept) (g : graph) (n_classes : nat)
    : res totals :=
  let '(all_object_properties, all_data_annotation_properties) :=
    foldl collect_step (∅, ∅) (values concept_properties) in
  let total_object_properties_unique := size all_object_properties in
  let total_data_annotation_properties_unique := size all_data_annotation_properties in
  let total_object_properties := sum_len object_properties concept_properties in
  let total_data_annotation_properties :=
    sum_len data_annotation_properties concept_properties in
  property_density ←
    div_if_positive (total_object_properties + total_data_annotation_properties)
      n_classes;
  object_density ← div_if_positive total_object_properties n_classes;
  data_annotation_density ←
    div_if_positive total_data_annotation_properties n_classes;
  Ok (Totals total_object_properties total_data_annotation_properties
        total_object_properties_unique total_data_annotation_properties_unique
        property_density object_density data_annotation_density).

(** ** [count_subclasses_and_average] *)

Record subclass_metrics := SubclassMetrics {
  total_subclasses : nat;
  average_subclasses_per_class : Q
}.

Definition count_subclasses_and_average (g : graph) (total_classes : nat)
    : res subclass_metrics :=
  let subclasses : gset string :=
    list_to_set ((λ t, str (subj t)) <$> triples None (Some RDFS.subClassOf) None g) in
  let total_subclasses := size subclasses in
  average_subclasses ← div_if_positive total_subclasses total_classes;
  Ok (SubclassMetrics total_subclasses average_subclasses).

(** ** Counts of declared properties *)

(** [sum(1 for _ in it)] *)
Definition count_iter {A} (it : list A) : nat := sum_list ((λ _, 1%nat) <$> it).

Definition count_annotation_properties (g : graph) : nat :=
  count_iter (triples None (Some RDF.type) (Some OWL.AnnotationProperty) g).

Definition count_datatype_properties (g : graph) : nat :=
  count_iter (triples None (Some RDF.type) (Some OWL.DatatypeProperty) g).

Definition count_object_properties (g : graph) : nat :=
  count_iter (triples None (Some RDF.type) (Some OWL.ObjectProperty) g).

(** ** Individuals *)

(** The subject of the first [(_, rdf:type, owl:Ontology)] triple, [None]
    when there is none. *)
Definition ontology_root (g : graph) : option term :=
  subj <$> head (triples None (Some RDF.type) (Some OWL.Ontology) g).

(** Truth value of a term.  [URIRef] and [BNode] are Python strings, false
    when empty.  A literal is never the subject of a triple read from
    Turtle; its lexical form decides here. *)
Definition truthy (t : term) : bool := negb (bool_decide (str t = "")).

Definition excluded_types : list term :=
  [ OWL.Class; OWL.ObjectProperty; OWL.AnnotationProperty; OWL.DatatypeProperty;
    OWL.Ontology; OWL.Restriction; OWL.FunctionalProperty; OWL.DeprecatedProperty;
    OWL.InverseFunctionalProperty; OWL.SymmetricProperty; OWL.TransitiveProperty;
    OWL.onDatatype; OWL.DeprecatedClass; RDF.Property; RDFS.Datatype; RDFS.Class ].

(** The nested function [is_valid_individual], closed over the graph and
    the ontology root; the same text in both of its occurrences. *)
Definition is_valid_individual (g : graph) (ontology_root : option term)
    (uri : term) : bool :=
  if match ontology_root with
     | Some r => truthy r && bool_decide (uri = r)
     | None => false
     end
  then false
  else forallb (λ t, negb (py_in (obj t) excluded_types))
         (triples (Some uri) (Some RDF.type) None g).

(** Body of both loops of [count_individuals], and of the first loop of
    [list_properties_by_individual]. *)
Definition individual_step (g : graph) (ontology_root : option term)
    (individuals : gset term) (t : triple) : gset term :=
  if negb (isinstance_BNode (subj t)) && is_valid_individual g ontology_root (subj t)
  then {[subj t]} ∪ individuals
  else individuals.

(** Body of the second loop of [list_properties_by_individual]. *)
Definition typed_individual_step (g : graph) (ontology_root : option term)
    (individuals : gset term) (t : triple) : gset term :=
  if negb (py_in (obj t) excluded_types)
     && negb (isinstance_BNode (subj t))
     && is_valid_individual g ontology_root (subj t)
  then {[subj t]} ∪ individuals
  else individuals.

(** The set [individuals] built by [count_individuals]. *)
Definition individuals_counted (g : graph) : gset term :=
  let ontology_root := ontology_root g in
  let individuals :=
    foldl (individual_step g ontology_root) ∅
      (triples None (Some RDF.type) (Some OWL.NamedIndividual) g) in
  foldl (individual_step g ontology_root) individuals
    (triples None (Some RDF.type) None g).

Definition count_individuals (g : graph) : nat := size (individuals_counted g).

(** The set [individuals] built by [list_properties_by_individual]. *)
Definition individuals_listed (g : graph) : gset term :=
  let ontology_root := ontology_root g in
  let individuals :=
    foldl (individual_step g ontology_root) ∅
      (triples None (Some RDF.type) (Some OWL.NamedIndividual) g) in
  foldl (typed_individual_step g ontology_root) individuals
    (triples None (Some RDF.type) None g).

(** ** [list_properties_by_individual] *)

(** State of the property loop: the dict and the two counters. *)
Record individual_acc := IndividualAcc {
  acc_properties : gmap term props;
  acc_object : nat;
  acc_data : nat
}.

Definition individual_property_step (individuals : gset term)
    (acc : individual_acc) (t : triple) : individual_acc :=
  if bool_decide (subj t ∈ individuals) then
    let individual_properties := init_props (subj t) (acc_properties acc) in
    if (isinstance_URIRef (obj t) || isinstance_BNode (obj t))
       && negb (py_in (pred t) excluded_object_properties)
    then IndividualAcc
           (alter (append_object (pred t)) (subj t) individual_properties)
           (acc_object acc + 1) (acc_data acc)
    else if negb (isinstance_URIRef (obj t)) && negb (isinstance_BNode (obj t))
            && negb (py_in (pred t) excluded_object_properties)
    then IndividualAcc
           (alter (append_data (pred t)) (subj t) individual_properties)
           (acc_object acc) (acc_data acc + 1)
    else IndividualAcc individual_properties (acc_object acc) (acc_data acc)
  else acc.

Record individual_metrics := IndividualMetrics {
  individual_properties : gmap term props;
  object_properties_per_individual : Q;
  data_properties_per_individual : Q;
  property_density_by_individual : Q
}.

(** [list_properties_by_individual] after the graph is loaded. *)
Definition list_properties_by_individual_graph (g : graph)
    : res individual_metrics :=
  let individuals := individuals_listed g in
  let acc :=
    foldl (individual_property_step individuals) (IndividualAcc ∅ 0 0)
      (triples None None None g) in
  let num_individuals := size individuals in
  object_properties_per_individual ←
    div_if_positive (acc_object acc) num_individuals;
  data_properties_per_individual ←
    div_if_positive (acc_data acc) num_individuals;
  let property_density_by_individual :=
    (object_properties_per_individual + data_properties_per_individual)%Q in
  Ok (IndividualMetrics (acc_properties acc) object_properties_per_individual
        data_properties_per_individual property_density_by_individual).

(** ** The per-document record *)

Record textual_metrics := TextualMetrics {
  total_words_in_literals : nat;
  average_words_per_literal : Q;
  longest_literal : nat;
  shortest_literal : nat;
  vocabulary_size_in_literals : nat
}.

Record global_text_metrics := GlobalTextMetrics {
  total_words_in_raw : nat;
  vocabulary_size_in_raw : nat
}.

Record metrics := Metrics {
  File_Name : string;
  Total_Triples : nat;
  Total_Classes : nat;
  Total_Individuals : nat;
  Total_Object_Properties : nat;
  Unique_Object_Properties : nat;
  Object_Properties_Defined : nat;
  Total_Data_Annotation_Properties : nat;
  Unique_Data_Annotation_Properties : nat;
  Property_Density_by_Class : Q;
  Object_Density_by_Class : Q;
  Data_Annotation_Density_by_Class : Q;
  Property_Density_by_Individual : Q;
  Object_Density_by_Individual : Q;
  Data_Annotation_Density_by_Individual : Q;
  Data_Properties_Defined : nat;
  Annotation_Properties_Defined : nat;
  Total_Subclasses : nat;
  Average_Subclasses_per_Class : Q;
  Total_Words_in_Literals : nat;
  Average_Words_per_Literal : Q;
  Longest_Literal_Words : nat;
  Shortest_Literal_Words : nat;
  Vocabulary_Size_in_Literals : nat;
  Total_Words_in_Raw_TTL_File : nat;
  Vocabulary_Size_in_Raw_TTL_File : nat
}.

(** [max(l)] and [min(l)], which raise on the empty list. *)
Definition py_max (l : list nat) : res nat :=
  match l with
  | [] => Raise (ValueError "max() arg is an empty sequence")
  | x :: l => Ok (foldl Nat.max x l)
  end.

Definition py_min (l : list nat) : res nat :=
  match l with
  | [] => Raise (ValueError "min() arg is an empty sequence")
  | x :: l => Ok (foldl Nat.min x l)
  end.

(** [os.path.basename]: what follows the last slash. *)
Fixpoint basename_from (acc : string) (p : string) : string :=
  match p with
  | EmptyString => acc
  | String c p =>
      if Ascii.eqb c "/"%char then basename_from "" p
      else basename_from (acc ++ String c "") p
  end.
Definition basename (p : string) : string := basename_from "" p.

(** [os.path.join(a, b)] for a name [b] of a directory listing. *)
Definition path_join (a b : string) : string := a ++ "/" ++ b.

(** [s.endswith(suffix)] *)
Definition endswith (s suffix : string) : bool :=
  bool_decide (String.length suffix ≤ String.length s)%nat
  && String.eqb
       (String.substring (String.length s - String.length suffix)
          (String.length suffix) s)
       suffix.

(** [print(line)] on the lines printed so far. *)
Definition print (out : list string) (line : string) : list string :=
  (out ++ [line])%list.

(** ** The functions that read a file *)

Section Engine.

(** The external collaborators: the Turtle parser ([Graph().parse]), the
    reading of a file as text, the word tokenizer
    ([re.findall(r'\b\w+\b', _)]) and [str.lower].  The three loads of one
    file by [process_ttl_file] yield the same triples. *)
Variable parse : string → res graph.
Variable read_text : string → res string.
Variable findall_words : string → list string.
Variable lower : string → string.

Definition list_properties_by_concept (file_path : string)
    : res (gmap term concept * gmap term class_info) :=
  g ← parse file_path;
  list_properties_by_concept_graph g.

Definition list_properties_by_individual (file_path : string)
    : res individual_metrics :=
  g ← parse file_path;
  list_properties_by_individual_graph g.

(** Body of the loop of [extract_textual_metrics]. *)
Definition tokenize_step (acc : list string * list nat) (literal : term)
    : list string * list nat :=
  let tokenized := findall_words (str literal) in
  ((acc.1 ++ tokenized)%list, (acc.2 ++ [length tokenized])%list).

Definition extract_textual_metrics (g : graph) : res textual_metrics :=
  let literals :=
    obj <$> filter (λ t, isinstance_Literal (obj t)) (triples None None None g) in
  let total_literals := length literals in
  if bool_decide (total_literals = 0%nat) then Ok (TextualMetrics 0 0 0 0 0)
  else
    let '(words, word_counts) := foldl tokenize_step ([], []) literals in
    let total_words := length words in
    average_words_per_literal ← py_truediv total_words total_literals;
    longest_literal ← py_max word_counts;
    shortest_literal ← py_min word_counts;
    let vocabulary : gset string := list_to_set (lower <$> words) in
    Ok (TextualMetrics total_words average_words_per_literal longest_literal
          shortest_literal (size vocabulary)).

Definition calculate_global_text_metrics (file_path : string)
    : res global_text_metrics :=
  raw_text ← read_text file_path;
  let words := findall_words raw_text in
  let vocabulary : gset string := list_to_set (lower <$> words) in
  Ok (GlobalTextMetrics (length words) (size vocabulary)).

(** The [try] block of [process_ttl_file]. *)
Definition process_ttl_file_try (file_path : string) : res metrics :=
  g ← parse file_path;
  let total_triples := length g in
  '(concept_properties, classes) ← list_properties_by_concept file_path;
  individuals_density ← list_properties_by_individual file_path;
  let n_classes := size classes in
  totals_and_densities ←
    calculate_totals_and_densities concept_properties g n_classes;
  subclass_metrics ← count_subclasses_and_average g n_classes;
  let num_object_properties_defined := count_object_properties g in
  let num_datatype_properties_defined := count_datatype_properties g in
  let num_annotation_properties_defined := count_annotation_properties g in
  let total_individuals := count_individuals g in
  textual_metrics ← extract_textual_metrics g;
  global_text_metrics ← calculate_global_text_metrics file_path;
  Ok {|
    File_Name := basename file_path;
    Total_Triples := total_triples;
    Total_Classes := n_classes;
    Total_Individuals := total_individuals;
    Total_Object_Properties := total_object_properties totals_and_densities;
    Unique_Object_Properties :=
      total_object_properties_unique totals_and_densities;
    Object_Properties_Defined := num_object_properties_defined;
    Total_Data_Annotation_Properties :=
      total_data_annotation_properties totals_and_densities;
    Unique_Data_Annotation_Properties :=
      total_data_annotation_properties_unique totals_and_densities;
    Property_Density_by_Class := property_density totals_and_densities;
    Object_Density_by_Class := object_density totals_and_densities;
    Data_Annotation_Density_by_Class :=
      data_annotation_density totals_and_densities;
    Property_Density_by_Individual :=
      property_density_by_individual individuals_density;
    Object_Density_by_Individual :=
      object_properties_per_individual individuals_density;
    Data_Annotation_Density_by_Individual :=
      data_properties_per_individual individuals_density;
    Data_Properties_Defined := num_datatype_properties_defined;
    Annotation_Properties_Defined := num_annotation_properties_defined;
    Total_Subclasses := total_subclasses subclass_metrics;
    Average_Subclasses_per_Class :=
      average_subclasses_per_class subclass_metrics;
    Total_Words_in_Literals := total_words_in_literals textual_metrics;
    Average_Words_per_Literal := average_words_per_literal textual_metrics;
    Longest_Literal_Words := longest_literal textual_metrics;
    Shortest_Literal_Words := shortest_literal textual_metrics;
    Vocabulary_Size_in_Literals := vocabulary_size_in_literals textual_metrics;
    Total_Words_in_Raw_TTL_File := total_words_in_raw global_text_metrics;
    Vocabulary_Size_in_Raw_TTL_File := vocabulary_size_in_raw global_text_metrics
  |}.

(** [process_ttl_file]: the lines it prints and what it returns, [None]
    after [except Exception as e]. *)
Definition process_ttl_file (file_path : string) : list string * option metrics :=
  match process_ttl_file_try file_path with
  | Ok record => ([], Some record)
  | Raise e =>
      (["Error processing file " ++ file_path ++ ": " ++ exn_str e], None)
  end.

(** ** The batch *)

Definition folder_path : string := "./ttl/ttl".
Definition output_excel : string := "ontology_metrics.xlsx".

(** State of the main loop: the data frame, the rows last written to the
    output file ([None] before the first write) and the printed lines. *)
Record batch := Batch {
  df : list metrics;
  written : option (list metrics);
  stdout : list string
}.

(** Body of the loop over the directory listing.  A record is a dict of 26
    entries, so [if metrics:] tests that it is not [None]. *)
Definition main_step (st : batch) (file_name : string) : batch :=
  if endswith file_name ".ttl" then
    let file_path := path_join folder_path file_name in
    let out := print (stdout st) ("Processing file: " ++ file_name) in
    let '(printed, metrics) := process_ttl_file file_path in
    let out := (out ++ printed)%list in
    match metrics with
    | Some record =>
        let df := (df st ++ [record])%list in
        Batch df (Some df)
          (print out ("Metrics for " ++ file_name ++ " saved to " ++ output_excel))
    | None => Batch (df st) (written st) out
    end
  else st.

(** The main program on the listing [os.listdir(folder_path)]. *)
Definition main (listing : list string) : batch :=
  let st := foldl main_step (Batch [] None []) listing in
  Batch (df st) (written st)
    (print (stdout st)
       ("Processing complete. Final results saved to " ++ output_excel)).

(** The record of a listed name, when it is a document that yields one. *)
Definition record_of (file_name : string) : option metrics :=
  if endswith file_name ".ttl"
  then (process_ttl_file (path_join folder_path file_name)).2
  else None.

End Engine.

(** ** Predicates used to state the results *)

(** [R] is declared of type [C]: the graph holds [(R, rdf:type, C)]. *)
Definition typed_as (g : graph) (R C : term) : Prop := Triple R RDF.type C ∈ g.

#[global] Instance typed_as_dec g R C : Decision (typed_as g R C).
Proof. unfold typed_as. apply _. Defined.

(** [R] is the object of some [rdf:type] triple of the graph. *)
Definition used_as_type (g : graph) (R : term) : Prop :=
  R ∈ (obj <$> triples None (Some RDF.type) None g).

#[global] Instance used_as_type_dec g R : Decision (used_as_type g R).
Proof. unfold used_as_type. apply _. Defined.

(** The record of [process_ttl_file], from the results of its steps. *)
Definition assemble_record (file_path : string) (g : graph) (t : totals)
    (s : subclass_metrics) (im : individual_metrics) (tm : textual_metrics)
    (gm : global_text_metrics) : metrics :=
  {|
    File_Name := basename file_path;
    Total_Triples := length g;
    Total_Classes := size (identify_classes g);
    Total_Individuals := count_individuals g;
    Total_Object_Properties := total_object_properties t;
    Unique_Object_Properties := total_object_properties_unique t;
    Object_Properties_Defined := count_object_properties g;
    Total_Data_Annotation_Properties := total_data_annotation_properties t;
    Unique_Data_Annotation_Properties :=
      total_data_annotation_properties_unique t;
    Property_Density_by_Class := property_density t;
    Object_Density_by_Class := object_density t;
    Data_Annotation_Density_by_Class := data_annotation_density t;
    Property_Density_by_Individual := property_density_by_individual im;
    Object_Density_by_Individual := object_properties_per_individual im;
    Data_Annotation_Density_by_Individual :=
      data_properties_per_individual im;
    Data_Properties_Defined := count_datatype_properties g;
    Annotation_Properties_Defined := count_annotation_properties g;
    Total_Subclasses := total_subclasses s;
    Average_Subclasses_per_Class := average_subclasses_per_class s;
    Total_Words_in_Literals := total_words_in_literals tm;
    Average_Words_per_Literal := average_words_per_literal tm;
    Longest_Literal_Words := longest_literal tm;
    Shortest_Literal_Words := shortest_literal tm;
    Vocabulary_Size_in_Literals := vocabulary_size_in_literals tm;
    Total_Words_in_Raw_TTL_File := total_words_in_raw gm;
    Vocabulary_Size_in_Raw_TTL_File := vocabulary_size_in_raw gm
  |}.

(** The classification of the specification, first match wins: rule 1
    ([owl:Class]), else rule 2 ([rdfs:Class]), else rule 3 ([rdf:Class]),
    else rule 4 (object of a type triple, outside the exclusion sets), blank
    nodes dropped. *)
Definition spec_classification (g : graph) (R : term) : option class_info :=
  if isinstance_BNode R then None
  else if decide (typed_as g R OWL.Class) then Some explicit_owl
  else if decide (typed_as g R RDFS.Class) then Some explicit_rdfs
  else if decide (typed_as g R RDF_CLASS) then Some explicit_rdf
  else if decide (used_as_type g R ∧ skipped_type R = false) then Some inferred
  else None.

(** The buckets of the Property Classifier and its two modes, in the words
    of the specification: a predicate of the exclusion list goes nowhere; a
    resource reference as object sends the predicate to the object bucket, a
    literal to the data/annotation bucket, a blank node to the
    data/annotation bucket for classes and to the object bucket for
    individuals. *)
Inductive bucket := ObjectBucket | DataBucket.
Inductive mode := ClassMode | IndividualMode.

#[global] Instance bucket_eq_dec : EqDecision bucket.
Proof. solve_decision. Defined.

Definition spec_bucket (m : mode) (t : triple) : option bucket :=
  if py_in (pred t) [RDFS.subClassOf; RDF.type] then None
  else match obj t with
       | URIRef _ => Some ObjectBucket
       | Literal _ _ _ => Some DataBucket
       | BNode _ =>
           match m with
           | ClassMode => Some DataBucket
           | IndividualMode => Some ObjectBucket
           end
       end.

(** The predicates of the triples of subject [s] that satisfy [P], in the
    order of the graph. *)
Definition predicates_of (P : triple → Prop) `{!∀ t, Decision (P t)}
    (s : term) (l : list triple) : list term :=
  pred <$> filter (λ t, subj t = s ∧ P t) l.

(** What the specification puts in bucket [b] of subject [s]. *)
Definition spec_bucket_list (m : mode) (b : bucket) (s : term) (g : graph)
    : list term :=
  predicates_of (λ t, spec_bucket m t = Some b) s g.

(** The common shape of the two property loops: [member] tests the subject,
    [to_object] and [to_data] are the tests of the two branches. *)
Definition property_step (member : term → bool) (to_object to_data : triple → bool)
    (d : gmap term props) (t : triple) : gmap term props :=
  if member (subj t) then
    let d := init_props (subj t) d in
    if to_object t then alter (append_object (pred t)) (subj t) d
    else if to_data t then alter (append_data (pred t)) (subj t) d
    else d
  else d.

(** What one triple does to the lists of its subject. *)
Definition property_update (to_object to_data : triple → bool) (t : triple)
    (x : props) : props :=
  if to_object t then append_object (pred t) x
  else if to_data t then append_data (pred t) x
  else x.

(** The tests of the two branches, for classes and for individuals. *)
Definition class_to_object (t : triple) : bool :=
  isinstance_URIRef (obj t) && negb (py_in (pred t) excluded_object_properties).
Definition class_to_data (t : triple) : bool :=
  negb (isinstance_URIRef (obj t))
  && negb (py_in (pred t) excluded_object_properties).
Definition individual_to_object (t : triple) : bool :=
  (isinstance_URIRef (obj t) || isinstance_BNode (obj t))
  && negb (py_in (pred t) excluded_object_properties).
Definition individual_to_data (t : triple) : bool :=
  negb (isinstance_URIRef (obj t)) && negb (isinstance_BNode (obj t))
  && negb (py_in (pred t) excluded_object_properties).

(** The number of distinct objects of the [rdfs:subClassOf] triples. *)
Definition distinct_subclass_targets (g : graph) : nat :=
  size (list_to_set (obj <$> triples None (Some RDFS.subClassOf) None g) : gset term).

(** ** Sample documents *)

Definition ex (name : string) : term := URIRef ("http://example.org/" ++ name).

(** A resource declared both [owl:Class] and [rdfs:Class]. *)
Definition g_twice : graph :=
  [ Triple (ex "A") RDF.type OWL.Class;
    Triple (ex "A") RDF.type RDFS.Class ].

(** Two subclasses of one class. *)
Definition g_pets : graph :=
  [ Triple (ex "Animal") RDF.type OWL.Class;
    Triple (ex "Cat") RDF.type OWL.Class;
    Triple (ex "Dog") RDF.type OWL.Class;
    Triple (ex "Cat") RDFS.subClassOf (ex "Animal");
    Triple (ex "Dog") RDFS.subClassOf (ex "Animal");
    Triple (ex "Dog") (ex "label") (Literal "The dog" None None);
    Triple (ex "Fido") RDF.type (ex "Dog");
    Triple (ex "Fido") (ex "hasOwner") (ex "Alice");
    Triple (ex "Fido") (ex "hasName") (Literal "Fido" None None);
    Triple (ex "Fido") (ex "hasCollar") (BNode "b0") ].

(** The vocabulary terms declared as classes of themselves. *)
Definition g_meta : graph :=
  [ Triple OWL.Class RDF.type OWL.Class;
    Triple RDFS.Class RDF.type RDFS.Class;
    Triple RDF.Property RDF.type RDF_CLASS;
    Triple (BNode "b1") RDF.type OWL.Class;
    Triple (BNode "b2") RDF.type OWL.NamedIndividual ].

(** A directory with one readable document and one that does not parse. *)
Definition sample_parse (file_path : string) : res graph :=
  if bool_decide (file_path = "./ttl/ttl/pets.ttl") then Ok g_pets
  else Raise (External "Bad syntax at line 1").

Definition sample_read_text (file_path : string) : res string :=
  if bool_decide (file_path = "./ttl/ttl/pets.ttl") then Ok "ex:Cat a owl:Class ."
  else Raise (External "No such file").

(** Words separated by spaces. *)
Fixpoint split_spaces (word : string) (s : string) : list string :=
  match s with
  | EmptyString => if bool_decide (word = "") then [] else [word]
  | String c s =>
      if Ascii.eqb c " "%char
      then (if bool_decide (word = "") then [] else [word]) ++ split_spaces "" s
      else split_spaces (word ++ String c "") s
  end.
Definition sample_findall_words (s : string) : list string := split_spaces "" s.

(** Lower case of the letters A to Z. *)
Definition lower_ascii (c : ascii) : ascii :=
  let n := nat_of_ascii c in
  if (65 <=? n)%nat && (n <=? 90)%nat then ascii_of_nat (n + 32) else c.

Fixpoint sample_lower (s : string) : string :=
  match s with
  | EmptyString => EmptyString
  | String c s => String (lower_ascii c) (sample_lower s)
  end.

(** * Facts *)

(** ** Pattern queries *)

Lemma elem_of_triples s p o g t :
  t ∈ triples s p o g ↔
  t ∈ g ∧ matches s (subj t) ∧ matches p (pred t) ∧ matches o (obj t).
Proof.
  unfold triples. rewrite list_elem_of_filter, !andb_True. tauto.
Qed.

Lemma matches_Some x t : matches (Some x) t ↔ t = x.
Proof. unfold matches. apply bool_decide_spec. Qed.

Lemma triples_all g : triples None None None g = g.
Proof.
  unfold triples. induction g as [|t g IH]; [done|].
  rewrite filter_cons_True by done. by rewrite IH.
Qed.

Lemma subj_typed_iff g R C :
  R ∈ (subj <$> triples None (Some RDF.type) (Some C) g) ↔ typed_as g R C.
Proof.
  unfold typed_as. rewrite list_elem_of_fmap. split.
  - intros ([s p o] & -> & Ht). apply elem_of_triples in Ht as (Hg & _ & Hp & Ho).
    apply matches_Some in Hp, Ho. simpl in *. by subst.
  - intros Hg. exists (Triple R RDF.type C). split; [done|].
    apply elem_of_triples. rewrite !matches_Some. by repeat split.
Qed.

Lemma used_as_type_iff g R : used_as_type g R ↔ ∃ s, Triple s RDF.type R ∈ g.
Proof.
  unfold used_as_type. rewrite list_elem_of_fmap. split.
  - intros ([s p o] & -> & Ht). apply elem_of_triples in Ht as (Hg & _ & Hp & _).
    apply matches_Some in Hp. simpl in *. subst. by exists s.
  - intros [s Hg]. exists (Triple s RDF.type R). split; [done|].
    apply elem_of_triples. rewrite !matches_Some. by repeat split.
Qed.

Lemma py_in_spec x S : py_in x S ↔ x ∈ S.
Proof. unfold py_in. apply bool_decide_spec. Qed.

(** ** The loops of [identify_classes] *)

Lemma foldl_explicit_lookup v l m R :
  foldl (explicit_step v) m l !! R =
  if decide ((R ∉ ADDITIONAL_EXCLUDES) ∧ R ∈ (subj <$> l)) then Some v else m !! R.
Proof.
  revert m. induction l as [|t l IH]; intros m; simpl.
  - case_decide as H; [|done]. destruct H as [_ H]. by apply elem_of_nil in H.
  - rewrite IH. unfold explicit_step.
    destruct (decide ((R ∉ ADDITIONAL_EXCLUDES) ∧ R ∈ (subj <$> l)))
      as [[Hx Hl]|Hn].
    + rewrite decide_True; [done|]. split; [done|]. by apply elem_of_cons; right.
    + destruct (py_in (subj t) ADDITIONAL_EXCLUDES) eqn:Hin; simpl.
      * rewrite decide_False; [done|]. intros [Hx [->|Hl]%elem_of_cons].
        -- apply Hx. apply py_in_spec. by rewrite Hin.
        -- by apply Hn.
      * destruct (decide (R = subj t)) as [->|Hne].
        -- rewrite lookup_insert_eq. rewrite decide_True; [done|]. split.
           ++ intros Hx%py_in_spec. by rewrite Hin in Hx.
           ++ by apply elem_of_cons; left.
        -- rewrite lookup_insert_ne by done. rewrite decide_False; [done|].
           intros [Hx [->|Hl]%elem_of_cons]; [done|]. by apply Hn.
Qed.

Lemma foldl_inferred_lookup l m R :
  foldl inferred_step m l !! R =
  match m !! R with
  | Some x => Some x
  | None =>
      if decide (skipped_type R = false ∧ R ∈ (obj <$> l)) then Some inferred
      else None
  end.
Proof.
  revert m. induction l as [|t l IH]; intros m; simpl.
  - destruct (m !! R); [done|]. case_decide as H; [|done].
    destruct H as [_ H]. by apply elem_of_nil in H.
  - rewrite IH. unfold inferred_step.
    destruct (decide (R = obj t)) as [->|Hne].
    + case_bool_decide as Hd.
      * apply not_elem_of_dom in Hd. rewrite Hd.
        destruct (skipped_type (obj t)) eqn:Hs.
        -- rewrite Hd. rewrite !decide_False; [done| |]; by intros [? ?].
        -- rewrite lookup_insert_eq. rewrite decide_True; [done|].
           split; [done|]. by apply elem_of_cons; left.
      * apply elem_of_dom in Hd as [x Hx]. by rewrite Hx.
    + assert (Hiff : R ∈ obj <$> t :: l ↔ R ∈ (obj <$> l)).
      { rewrite fmap_cons, elem_of_cons. split; [by intros [?|?]|by right]. }
      assert (Hm : (if bool_decide (obj t ∉ dom m)
                    then if skipped_type (obj t) then m else <[obj t:=inferred]> m
                    else m) !! R = m !! R).
      { case_bool_decide; [|done]. destruct (skipped_type (obj t)); [done|].
        by rewrite lookup_insert_ne. }
      rewrite Hm. destruct (m !! R); [done|].
      destruct (decide (skipped_type R = false ∧ R ∈ (obj <$> l))) as [[? ?]|Hn].
      * rewrite decide_True; [done|]. by rewrite Hiff.
      * rewrite decide_False; [done|]. by rewrite Hiff.
Qed.

Lemma foldl_drop_bnode_lookup l m R :
  foldl drop_bnode_step m l !! R =
  if decide (isinstance_BNode R ∧ R ∈ l) then None else m !! R.
Proof.
  revert m. induction l as [|c l IH]; intros m; simpl.
  - rewrite decide_False; [done|]. intros [_ H]. by apply elem_of_nil in H.
  - rewrite IH. unfold drop_bnode_step.
    destruct (decide (isinstance_BNode R ∧ R ∈ l)) as [[Hb Hl]|Hn].
    + rewrite decide_True; [done|]. split; [done|]. by apply elem_of_cons; right.
    + destruct (decide (R = c)) as [->|Hne].
      * destruct (isinstance_BNode c) eqn:Hc.
        -- rewrite lookup_delete_eq. rewrite decide_True; [done|].
           split; [done|]. by apply elem_of_cons; left.
        -- rewrite decide_False; [done|]. by intros [? ?].
      * assert (Hm : (if isinstance_BNode c then delete c m else m) !! R = m !! R).
        { destruct (isinstance_BNode c); [|done]. by rewrite lookup_delete_ne. }
        rewrite Hm. rewrite decide_False; [done|].
        intros [Hb [->|Hl]%elem_of_cons]; [done|]. by apply Hn.
Qed.

Lemma drop_bnodes_lookup (m : gmap term class_info) R :
  foldl drop_bnode_step m (map_to_list m).*1 !! R =
  if isinstance_BNode R then None else m !! R.
Proof.
  rewrite foldl_drop_bnode_lookup.
  destruct (isinstance_BNode R) eqn:Hb.
  - destruct (m !! R) as [x|] eqn:Hx.
    + rewrite decide_True; [done|]. split; [done|].
      apply list_elem_of_fmap. exists (R, x). split; [done|].
      by apply elem_of_map_to_list.
    + by case_decide.
  - rewrite decide_False; [done|]. by intros [? ?].
Qed.

(** The mapping returned by [identify_classes], key by key. *)
Lemma identify_classes_lookup g R :
  identify_classes g !! R =
  if isinstance_BNode R then None
  else if decide ((R ∉ ADDITIONAL_EXCLUDES) ∧ typed_as g R RDF_CLASS)
  then Some explicit_rdf
  else if decide ((R ∉ ADDITIONAL_EXCLUDES) ∧ typed_as g R RDFS.Class)
  then Some explicit_rdfs
  else if decide ((R ∉ ADDITIONAL_EXCLUDES) ∧ typed_as g R OWL.Class)
  then Some explicit_owl
  else if decide (skipped_type R = false ∧ used_as_type g R)
  then Some inferred
  else None.
Proof.
  unfold identify_classes. rewrite drop_bnodes_lookup.
  destruct (isinstance_BNode R); [done|].
  rewrite foldl_inferred_lookup, !foldl_explicit_lookup, lookup_empty.
  repeat case_decide;
    repeat match goal with
           | H : context [_ ∈ subj <$> _] |- _ => rewrite subj_typed_iff in H
           end;
    try done; tauto.
Qed.

(** ** The property loops *)

Lemma init_props_lookup s d :
  init_props s d !! s = Some (default (Props [] []) (d !! s)).
Proof.
  unfold init_props. case_bool_decide as Hd.
  - apply not_elem_of_dom in Hd. by rewrite lookup_insert_eq, Hd.
  - apply elem_of_dom in Hd as [x Hx]. by rewrite Hx.
Qed.

Lemma init_props_lookup_ne s s' d : s ≠ s' → init_props s d !! s' = d !! s'.
Proof.
  intros Hne. unfold init_props. case_bool_decide; [|done].
  by rewrite lookup_insert_ne.
Qed.

Lemma property_step_lookup_ne member so sd d t s :
  subj t ≠ s → property_step member so sd d t !! s = d !! s.
Proof.
  intros Hne. unfold property_step.
  destruct (member (subj t)); [|done].
  destruct (so t); [|destruct (sd t)];
    rewrite ?lookup_alter_ne by done; by apply init_props_lookup_ne.
Qed.

Lemma property_step_lookup_eq (member : term → bool) so sd d t :
  member (subj t) →
  property_step member so sd d t !! subj t =
  Some (property_update so sd t (default (Props [] []) (d !! subj t))).
Proof.
  intros Hm%Is_true_true. unfold property_step, property_update. rewrite Hm.
  destruct (so t); [|destruct (sd t)];
    rewrite ?lookup_alter_eq, init_props_lookup; done.
Qed.

Lemma property_step_lookup_out (member : term → bool) so sd d t :
  ¬ member (subj t) → property_step member so sd d t = d.
Proof. intros Hm%Is_true_false. unfold property_step. by rewrite Hm. Qed.

Lemma predicates_of_cons P `{!∀ t, Decision (P t)} s t l :
  predicates_of P s (t :: l) =
  if decide (subj t = s ∧ P t) then pred t :: predicates_of P s l
  else predicates_of P s l.
Proof.
  unfold predicates_of. rewrite filter_cons. by case_decide.
Qed.

Lemma predicates_of_absent P `{!∀ t, Decision (P t)} s l :
  s ∉ (subj <$> l) → predicates_of P s l = [].
Proof.
  induction l as [|t l IH]; [done|]. intros Hn.
  rewrite fmap_cons, not_elem_of_cons in Hn. destruct Hn as [Hne Hn].
  rewrite predicates_of_cons, decide_False by (by intros [? ?]). by apply IH.
Qed.

Lemma foldl_property_step_lookup (member : term → bool) so sd l d s :
  foldl (property_step member so sd) d l !! s =
  if decide (member s ∧ s ∈ (subj <$> l)) then
    let x := default (Props [] []) (d !! s) in
    Some (Props
            (object_properties x ++ predicates_of (λ t, so t) s l)
            (data_annotation_properties x
               ++ predicates_of (λ t, ¬ so t ∧ sd t) s l))
  else d !! s.
Proof.
  revert d. induction l as [|t l IH]; intros d.
  - rewrite decide_False; [done|]. intros [_ H]. by apply elem_of_nil in H.
  - cbn [foldl]. rewrite IH, !predicates_of_cons. clear IH.
    destruct (decide (subj t = s)) as [<-|Hne].
    + destruct (decide (member (subj t))) as [Hm|Hm].
      * rewrite property_step_lookup_eq by done.
        rewrite (decide_True (P := _ ∧ subj t ∈ (subj <$> t :: l)));
          [|split; [done|by apply elem_of_cons; left]].
        set (x := default (Props [] []) (d !! subj t)). cbn [default].
        set (y := property_update so sd t x).
        transitivity (Some (Props
          (object_properties y ++ predicates_of (λ t, so t) (subj t) l)
          (data_annotation_properties y
             ++ predicates_of (λ t, ¬ so t ∧ sd t) (subj t) l))).
        { case_decide as Hd; [done|].
          assert (subj t ∉ (subj <$> l)) as Hn by (intros ?; by apply Hd).
          rewrite !predicates_of_absent, !app_nil_r by done. by destruct y. }
        subst y. unfold property_update. cbv zeta.
        destruct (so t) eqn:Hso; simpl.
        -- rewrite decide_True by done. rewrite decide_False by (by intros [_ [? _]]).
           by rewrite <- app_assoc.
        -- rewrite decide_False by (by intros [_ ?]).
           destruct (sd t) eqn:Hsd; simpl.
           ++ rewrite decide_True by (split; [done|split; [by intros ?|done]]).
              by rewrite <- app_assoc.
           ++ rewrite decide_False by (by intros [_ [_ ?]]). done.
      * rewrite property_step_lookup_out by done.
        rewrite !decide_False; [done| |]; by intros [? _].
    + rewrite property_step_lookup_ne by done.
      rewrite !(decide_False (P := subj t = s ∧ _)) by (by intros [? _]).
      assert (Hiff : s ∈ (subj <$> t :: l) ↔ s ∈ (subj <$> l)).
      { rewrite fmap_cons, elem_of_cons. split; [by intros [?|?]|by right]. }
      destruct (decide (member s ∧ s ∈ (subj <$> l))) as [[? ?]|Hn].
      * rewrite decide_True; [done|]. by rewrite Hiff.
      * rewrite decide_False; [done|]. by rewrite Hiff.
Qed.

Lemma predicates_of_ext P Q `{!∀ t, Decision (P t)} `{!∀ t, Decision (Q t)} s l :
  (∀ t, P t ↔ Q t) → predicates_of P s l = predicates_of Q s l.
Proof.
  intros HPQ. induction l as [|t l IH]; [done|].
  rewrite !predicates_of_cons, IH.
  destruct (decide (subj t = s ∧ P t)) as [[? HP]|Hn].
  - rewrite decide_True; [done|]. split; [done|]. by apply HPQ.
  - rewrite decide_False; [done|]. intros [? HQ]. apply Hn. split; [done|].
    by apply HPQ.
Qed.

Lemma individual_property_step_property_step individuals acc t :
  acc_properties (individual_property_step individuals acc t) =
  property_step (λ s, bool_decide (s ∈ individuals))
    individual_to_object individual_to_data (acc_properties acc) t.
Proof.
  unfold individual_property_step, property_step,
    individual_to_object, individual_to_data.
  case_bool_decide; [|done]. 
  by repeat (match goal with |- context [if ?b then _ else _] => destruct b end).
Qed.

Lemma foldl_individual_property_step individuals l acc :
  acc_properties (foldl (individual_property_step individuals) acc l) =
  foldl (property_step (λ s, bool_decide (s ∈ individuals))
           individual_to_object individual_to_data) (acc_properties acc) l.
Proof.
  revert acc. induction l as [|t l IH]; intros acc; [done|].
  cbn [foldl]. by rewrite IH, individual_property_step_property_step.
Qed.

Lemma spec_bucket_class_object t :
  class_to_object t ↔ spec_bucket ClassMode t = Some ObjectBucket.
Proof.
  unfold class_to_object, spec_bucket.
  change [RDFS.subClassOf; RDF.type] with excluded_object_properties.
  destruct (py_in (pred t) excluded_object_properties), (obj t); simpl;
    split; by intros ?.
Qed.

Lemma spec_bucket_class_data t :
  ¬ class_to_object t ∧ class_to_data t ↔ spec_bucket ClassMode t = Some DataBucket.
Proof.
  unfold class_to_object, class_to_data, spec_bucket.
  change [RDFS.subClassOf; RDF.type] with excluded_object_properties.
  destruct (py_in (pred t) excluded_object_properties), (obj t); simpl;
    split; try (by intros ?); try (by intros [? ?]); by (intros _; split; [intros ?|]).
Qed.

Lemma spec_bucket_individual_object t :
  individual_to_object t ↔ spec_bucket IndividualMode t = Some ObjectBucket.
Proof.
  unfold individual_to_object, spec_bucket.
  change [RDFS.subClassOf; RDF.type] with excluded_object_properties.
  destruct (py_in (pred t) excluded_object_properties), (obj t); simpl;
    split; by intros ?.
Qed.

Lemma spec_bucket_individual_data t :
  ¬ individual_to_object t ∧ individual_to_data t ↔
  spec_bucket IndividualMode t = Some DataBucket.
Proof.
  unfold individual_to_object, individual_to_data, spec_bucket.
  change [RDFS.subClassOf; RDF.type] with excluded_object_properties.
  destruct (py_in (pred t) excluded_object_properties), (obj t); simpl;
    split; try (by intros ?); try (by intros [? ?]); by (intros _; split; [intros ?|]).
Qed.

(** The dict built by the loop of [list_properties_by_concept]. *)
Lemma concept_properties_lookup g s :
  foldl (concept_step (identify_classes g)) ∅ g !! s =
  if decide (s ∈ dom (identify_classes g) ∧ s ∈ (subj <$> g))
  then Some (Props (spec_bucket_list ClassMode ObjectBucket s g)
                   (spec_bucket_list ClassMode DataBucket s g))
  else None.
Proof.
  change (concept_step (identify_classes g))
    with (property_step (λ s, bool_decide (s ∈ dom (identify_classes g)))
            class_to_object class_to_data).
  rewrite foldl_property_step_lookup, lookup_empty. cbn [default].
  unfold spec_bucket_list.
  rewrite (predicates_of_ext _ _ s g spec_bucket_class_object).
  rewrite (predicates_of_ext _ _ s g spec_bucket_class_data).
  destruct (decide (s ∈ dom (identify_classes g) ∧ s ∈ (subj <$> g))) as [[? ?]|Hn].
  - rewrite decide_True; [done|]. split; [by apply bool_decide_pack|done].
  - rewrite decide_False; [done|]. intros [?%bool_decide_unpack ?]. by apply Hn.
Qed.

(** The dict built by the loop of [list_properties_by_individual]. *)
Lemma individual_properties_lookup g s :
  acc_properties
    (foldl (individual_property_step (individuals_listed g))
       (IndividualAcc ∅ 0 0) g) !! s =
  if decide (s ∈ individuals_listed g ∧ s ∈ (subj <$> g))
  then Some (Props (spec_bucket_list IndividualMode ObjectBucket s g)
                   (spec_bucket_list IndividualMode DataBucket s g))
  else None.
Proof.
  rewrite foldl_individual_property_step.
  rewrite foldl_property_step_lookup. cbn [acc_properties].
  rewrite lookup_empty. cbn [default]. unfold spec_bucket_list.
  rewrite (predicates_of_ext _ _ s g spec_bucket_individual_object).
  rewrite (predicates_of_ext _ _ s g spec_bucket_individual_data).
  destruct (decide (s ∈ individuals_listed g ∧ s ∈ (subj <$> g))) as [[? ?]|Hn].
  - rewrite decide_True; [done|]. split; [by apply bool_decide_pack|done].
  - rewrite decide_False; [done|]. intros [?%bool_decide_unpack ?]. by apply Hn.
Qed.

(** ** Totality of the helpers *)

Lemma div_if_positive_ok a n :
  ∃ q, div_if_positive a n = Ok q ∧ (0 <= q)%Q ∧ (n = 0%nat → q = 0%Q)
       ∧ (n ≠ 0%nat → q = (inject_Z (Z.of_nat a) / inject_Z (Z.of_nat n))%Q).
Proof.
  unfold div_if_positive, py_truediv. case_bool_decide as Hn.
  - rewrite bool_decide_eq_false_2 by lia. eexists. split; [done|].
    split; [|split; [lia|done]].
    apply Qle_shift_div_l.
    + change 0%Q with (inject_Z 0). rewrite <- Zlt_Qlt. lia.
    + rewrite Qmult_0_l. change 0%Q with (inject_Z 0). rewrite <- Zle_Qle. lia.
  - exists 0%Q. split; [done|]. split; [apply Qle_refl|]. split; [done|lia].
Qed.

Lemma dict_comprehension_ok {V W} (f : term → V → res W) (d : gmap term V) :
  (∀ k v, d !! k = Some v → ∃ w, f k v = Ok w) →
  ∃ r, dict_comprehension f d = Ok r
       ∧ ∀ k, match d !! k with
              | Some v => ∃ w, f k v = Ok w ∧ r !! k = Some w
              | None => r !! k = None
              end.
Proof.
  unfold dict_comprehension.
  apply (map_fold_weak_ind
    (λ acc (m : gmap term V),
       (∀ k v, m !! k = Some v → ∃ w, f k v = Ok w) →
       ∃ r, acc = Ok r
            ∧ ∀ k, match m !! k with
                   | Some v => ∃ w, f k v = Ok w ∧ r !! k = Some w
                   | None => r !! k = None
                   end)).
  - intros _. exists ∅. split; [done|]. intros k. by rewrite !lookup_empty.
  - intros i x m acc Hi IH Hf.
    destruct IH as (r & -> & Hr).
    { intros k v Hk. apply Hf. rewrite lookup_insert_ne; [done|]. congruence. }
    destruct (Hf i x) as [w Hw]; [by rewrite lookup_insert_eq|].
    exists (<[i := w]> r). split.
    + cbn. by rewrite Hw.
    + intros k. destruct (decide (i = k)) as [->|Hne].
      * rewrite !lookup_insert_eq. by exists w.
      * rewrite !lookup_insert_ne by done. apply Hr.
Qed.

Lemma list_properties_by_concept_graph_ok g :
  ∃ d, list_properties_by_concept_graph g = Ok (d, identify_classes g)
       ∧ ∀ s, d !! s =
              if decide (s ∈ dom (identify_classes g) ∧ s ∈ (subj <$> g))
              then (λ info,
                      Concept (type info)
                        (Props (spec_bucket_list ClassMode ObjectBucket s g)
                               (spec_bucket_list ClassMode DataBucket s g)))
                   <$> identify_classes g !! s
              else None.
Proof.
  unfold list_properties_by_concept_graph. rewrite triples_all.
  set (classes := identify_classes g).
  set (cp := foldl (concept_step classes) ∅ g).
  match goal with
  | |- context [dict_comprehension ?f cp] =>
      destruct (dict_comprehension_ok f cp) as (d & Hd & Hl)
  end.
  { intros k v Hk. unfold cp, classes in Hk.
    rewrite concept_properties_lookup in Hk.
    case_decide as Hin; [|done]. destruct Hin as [Hin _].
    apply elem_of_dom in Hin as [info Hinfo].
    unfold getitem, classes. rewrite Hinfo. cbn. by eexists. }
  exists d. split; [by rewrite Hd|]. clear Hd. subst cp classes.
  intros s. specialize (Hl s).
  rewrite concept_properties_lookup in Hl.
  destruct (decide (s ∈ dom (identify_classes g) ∧ s ∈ (subj <$> g)))
    as [[Hin ?]|Hn]; [|exact Hl].
  destruct Hl as (w & Hw & ->).
  apply elem_of_dom in Hin as [info Hinfo].
  unfold getitem in Hw. rewrite Hinfo in Hw. cbn in Hw.
  rewrite Hinfo. cbn. congruence.
Qed.

Lemma list_properties_by_individual_graph_ok g :
  ∃ r, list_properties_by_individual_graph g = Ok r
       ∧ (∀ s, individual_properties r !! s =
               if decide (s ∈ individuals_listed g ∧ s ∈ (subj <$> g))
               then Some (Props (spec_bucket_list IndividualMode ObjectBucket s g)
                                (spec_bucket_list IndividualMode DataBucket s g))
               else None)
       ∧ property_density_by_individual r =
           (object_properties_per_individual r
              + data_properties_per_individual r)%Q
       ∧ (0 <= object_properties_per_individual r)%Q
       ∧ (0 <= data_properties_per_individual r)%Q
       ∧ (0 <= property_density_by_individual r)%Q
       ∧ (size (individuals_listed g) = 0%nat →
          object_properties_per_individual r = 0%Q
          ∧ data_properties_per_individual r = 0%Q
          ∧ property_density_by_individual r = 0%Q).
Proof.
  unfold list_properties_by_individual_graph. rewrite triples_all.
  set (acc := foldl _ _ g).
  destruct (div_if_positive_ok (acc_object acc) (size (individuals_listed g)))
    as (qo & -> & Hqo & Hzo & _).
  destruct (div_if_positive_ok (acc_data acc) (size (individuals_listed g)))
    as (qd & -> & Hqd & Hzd & _).
  eexists. split; [done|]. cbn.
  split; [intros s; apply individual_properties_lookup|].
  split; [done|]. split; [done|]. split; [done|].
  split.
  - replace 0%Q with (0 + 0)%Q by done. by apply Qplus_le_compat.
  - intros Hz. rewrite (Hzo Hz), (Hzd Hz). done.
Qed.

(** ** Individuals *)

Lemma foldl_individual_step_elem g root l (I : gset term) x :
  x ∈ foldl (individual_step g root) I l ↔
  x ∈ I
  ∨ (x ∈ (subj <$> l) ∧ ¬ isinstance_BNode x ∧ is_valid_individual g root x).
Proof.
  revert I. induction l as [|t l IH]; intros I.
  - cbn. split; [by left|]. intros [?|[H _]]; [done|]. by apply elem_of_nil in H.
  - cbn [foldl]. rewrite IH, fmap_cons, elem_of_cons. unfold individual_step.
    destruct (negb (isinstance_BNode (subj t))
              && is_valid_individual g root (subj t)) eqn:Hc.
    + apply andb_true_iff in Hc as [Hb%negb_true_iff Hv].
      assert (¬ isinstance_BNode (subj t)) by (rewrite Hb; simpl; by intros ?).
      assert (is_valid_individual g root (subj t) : Prop) by (by rewrite Hv).
      rewrite elem_of_union, elem_of_singleton. naive_solver.
    + assert (¬ (¬ isinstance_BNode (subj t)
                 ∧ is_valid_individual g root (subj t))).
      { intros [Hb Hv%Is_true_true]. rewrite Hv, andb_true_r in Hc.
        apply negb_false_iff in Hc. by rewrite Hc in Hb. }
      naive_solver.
Qed.

Lemma foldl_typed_individual_step_elem g root l (I : gset term) x :
  x ∈ foldl (typed_individual_step g root) I l ↔
  x ∈ I ∨ ((∃ t, t ∈ l ∧ subj t = x ∧ ¬ py_in (obj t) excluded_types)
           ∧ ¬ isinstance_BNode x ∧ is_valid_individual g root x).
Proof.
  revert I. induction l as [|t l IH]; intros I.
  - cbn. split; [by left|]. intros [?|[(t & H & _) _]]; [done|].
    by apply elem_of_nil in H.
  - cbn [foldl]. rewrite IH. unfold typed_individual_step.
    setoid_rewrite elem_of_cons.
    destruct (negb (py_in (obj t) excluded_types)
              && negb (isinstance_BNode (subj t))
              && is_valid_individual g root (subj t)) eqn:Hc.
    + apply andb_true_iff in Hc as [[He%negb_true_iff Hb%negb_true_iff]%andb_true_iff Hv].
      assert (¬ py_in (obj t) excluded_types) by (rewrite He; simpl; by intros ?).
      assert (¬ isinstance_BNode (subj t)) by (rewrite Hb; simpl; by intros ?).
      assert (is_valid_individual g root (subj t) : Prop) by (by rewrite Hv).
      rewrite elem_of_union, elem_of_singleton. naive_solver.
    + assert (¬ (¬ py_in (obj t) excluded_types
                 ∧ ¬ isinstance_BNode (subj t)
                 ∧ is_valid_individual g root (subj t))).
      { intros (He & Hb & Hv%Is_true_true). rewrite Hv, andb_true_r in Hc.
        apply andb_false_iff in Hc as [Hc|Hc]; apply negb_false_iff in Hc.
        - by rewrite Hc in He.
        - by rewrite Hc in Hb. }
      naive_solver.
Qed.

(** A valid individual has no excluded type among its declared types. *)
Lemma is_valid_individual_types g root t :
  is_valid_individual g root (subj t) → t ∈ g → pred t = RDF.type →
  ¬ py_in (obj t) excluded_types.
Proof.
  unfold is_valid_individual. intros Hv Hg Hp.
  destruct (match root with
            | Some r => truthy r && bool_decide (subj t = r)
            | None => false
            end); [done|].
  apply forallb_True in Hv. rewrite Forall_forall in Hv.
  specialize (Hv t). intros Hin. apply Is_true_true in Hin.
  rewrite Hin in Hv. apply Hv.
  apply elem_of_triples. rewrite !matches_Some. by repeat split.
Qed.

(** The two procedures build the same set. *)
Lemma individuals_agree g : individuals_counted g = individuals_listed g.
Proof.
  apply set_eq. intros x. unfold individuals_counted, individuals_listed.
  rewrite foldl_individual_step_elem, foldl_typed_individual_step_elem.
  split; (intros [?|H]; [by left|right]).
  - destruct H as (Hx & Hb & Hv). repeat split; try done.
    apply list_elem_of_fmap in Hx as (t & -> & Ht). exists t.
    split; [done|]. split; [done|].
    apply elem_of_triples in Ht as (Hg & _ & Hp%matches_Some & _).
    by eapply is_valid_individual_types.
  - destruct H as ((t & Ht & <- & _) & Hb & Hv). repeat split; try done.
    by apply list_elem_of_fmap_2.
Qed.

Lemma individuals_counted_not_bnode g x :
  x ∈ individuals_counted g → ¬ isinstance_BNode x.
Proof.
  unfold individuals_counted.
  rewrite !foldl_individual_step_elem.
  intros [[H|(_ & ? & _)]|(_ & ? & _)]; [|done|done].
  by apply elem_of_empty in H.
Qed.

(** ** The aggregator *)

Lemma size_add_le (A : gset term) l :
  (size (foldl (λ (s : gset term) prop, {[prop]} ∪ s) A l) ≤ size A + length l)%nat.
Proof.
  revert A. induction l as [|p l IH]; intros A; cbn [foldl length]; [lia|].
  etrans; [apply IH|]. rewrite size_union_alt, size_singleton.
  assert (size (A ∖ {[p]}) ≤ size A)%nat by (apply subseteq_size; set_solver).
  lia.
Qed.

Lemma size_list_to_set_le (l : list term) :
  (size (list_to_set l : gset term) ≤ length l)%nat.
Proof.
  induction l as [|p l IH]; cbn [list_to_set length].
  - by rewrite size_empty.
  - rewrite size_union_alt, size_singleton.
    assert (size ((list_to_set l : gset term) ∖ {[p]})
              ≤ size (list_to_set l : gset term))%nat
      by (apply subseteq_size; set_solver).
    lia.
Qed.

Lemma size_update_le (B : gset term) l :
  (size (B ∪ list_to_set l) ≤ size B + length l)%nat.
Proof.
  rewrite size_union_alt.
  assert (size ((list_to_set l : gset term) ∖ B)
            ≤ size (list_to_set l : gset term))%nat
    by (apply subseteq_size; set_solver).
  pose proof (size_list_to_set_le l). lia.
Qed.

Lemma collect_step_sizes vs (A B : gset term) :
  (size (foldl collect_step (A, B) vs).1
     ≤ size A + sum_list ((λ c, length (object_properties (concept_props c))) <$> vs)
   ∧ size (foldl collect_step (A, B) vs).2
     ≤ size B
       + sum_list
           ((λ c, length (data_annotation_properties (concept_props c))) <$> vs))%nat.
Proof.
  revert A B. induction vs as [|c vs IH]; intros A B; cbn [foldl fmap list_fmap sum_list].
  - simpl. lia.
  - unfold collect_step at 2 4. cbn [fst snd].
    match goal with |- context [foldl collect_step (?A', ?B') vs] =>
      destruct (IH A' B') as [H1 H2] end.
    pose proof (size_add_le A (object_properties (concept_props c))).
    pose proof (size_update_le B (data_annotation_properties (concept_props c))).
    simpl. split; lia.
Qed.

Lemma calculate_totals_and_densities_ok concept_properties g n_classes :
  ∃ r, calculate_totals_and_densities concept_properties g n_classes = Ok r
       ∧ (total_object_properties_unique r ≤ total_object_properties r)%nat
       ∧ (total_data_annotation_properties_unique r
            ≤ total_data_annotation_properties r)%nat
       ∧ (0 <= property_density r)%Q
       ∧ (0 <= object_density r)%Q
       ∧ (0 <= data_annotation_density r)%Q
       ∧ (n_classes = 0%nat →
          property_density r = 0%Q ∧ object_density r = 0%Q
          ∧ data_annotation_density r = 0%Q).
Proof.
  unfold calculate_totals_and_densities.
  pose proof (collect_step_sizes (values concept_properties) ∅ ∅) as [Ho Hd].
  destruct (foldl collect_step (∅, ∅) (values concept_properties)) as [A B].
  rewrite !size_empty in *. cbn [fst snd] in *.
  set (to := sum_len object_properties concept_properties).
  set (td := sum_len data_annotation_properties concept_properties).
  destruct (div_if_positive_ok (to + td) n_classes) as (qp & -> & Hp & Hzp & _).
  destruct (div_if_positive_ok to n_classes) as (qo & -> & Hqo & Hzo & _).
  destruct (div_if_positive_ok td n_classes) as (qd & -> & Hqd & Hzd & _).
  eexists. split; [done|]. cbn. repeat split; try done; auto.
Qed.

Lemma count_subclasses_and_average_ok g total_classes :
  ∃ r, count_subclasses_and_average g total_classes = Ok r
       ∧ total_subclasses r =
           size (list_to_set
                   ((λ t, str (subj t)) <$> triples None (Some RDFS.subClassOf) None g)
                 : gset string)
       ∧ (0 <= average_subclasses_per_class r)%Q
       ∧ (total_classes = 0%nat → average_subclasses_per_class r = 0%Q)
       ∧ (total_classes ≠ 0%nat →
          average_subclasses_per_class r =
            (inject_Z (Z.of_nat (total_subclasses r))
               / inject_Z (Z.of_nat total_classes))%Q).
Proof.
  unfold count_subclasses_and_average.
  match goal with |- context [div_if_positive ?a ?n] =>
    destruct (div_if_positive_ok a n) as (q & -> & Hq & Hz & Hnz) end.
  eexists. split; [done|]. cbn. by repeat split.
Qed.

Lemma py_max_ok l : l ≠ [] → ∃ n, py_max l = Ok n.
Proof. destruct l; [done|]. intros _. by eexists. Qed.

Lemma py_min_ok l : l ≠ [] → ∃ n, py_min l = Ok n.
Proof. destruct l; [done|]. intros _. by eexists. Qed.

Section EngineFacts.

Variable parse : string → res graph.
Variable read_text : string → res string.
Variable findall_words : string → list string.
Variable lower : string → string.

Lemma tokenize_step_counts l acc :
  length (foldl (tokenize_step findall_words) acc l).2 = (length acc.2 + length l)%nat.
Proof.
  revert acc. induction l as [|x l IH]; intros acc; cbn [foldl length]; [lia|].
  rewrite IH. unfold tokenize_step. cbn [snd]. rewrite length_app. simpl. lia.
Qed.

Lemma extract_textual_metrics_ok g :
  ∃ r, extract_textual_metrics findall_words lower g = Ok r.
Proof.
  unfold extract_textual_metrics.
  set (literals := obj <$> _).
  case_bool_decide as Hl; [by eexists|].
  pose proof (tokenize_step_counts literals ([], [])) as Hc.
  destruct (foldl (tokenize_step findall_words) ([], []) literals)
    as [words word_counts].
  cbn [snd length] in Hc.
  unfold py_truediv. rewrite bool_decide_eq_false_2 by done.
  assert (word_counts ≠ []) as Hne by (intros ->; simpl in Hc; lia).
  destruct (py_max_ok _ Hne) as [mx Hmx], (py_min_ok _ Hne) as [mn Hmn].
  cbn. rewrite Hmx. cbn. rewrite Hmn. cbn. by eexists.
Qed.

(** A document that parses and can be read yields a record, made of the
    results of the functions above. *)
Lemma process_ttl_file_try_ok file_path g raw_text :
  parse file_path = Ok g → read_text file_path = Ok raw_text →
  ∃ d t s im tm gm,
    list_properties_by_concept_graph g = Ok (d, identify_classes g)
    ∧ calculate_totals_and_densities d g (size (identify_classes g)) = Ok t
    ∧ count_subclasses_and_average g (size (identify_classes g)) = Ok s
    ∧ list_properties_by_individual_graph g = Ok im
    ∧ extract_textual_metrics findall_words lower g = Ok tm
    ∧ calculate_global_text_metrics read_text findall_words lower file_path = Ok gm
    ∧ process_ttl_file_try parse read_text findall_words lower file_path =
      Ok (assemble_record file_path g t s im tm gm).
Proof.
  intros Hparse Hread.
  destruct (list_properties_by_concept_graph_ok g) as (d & Hd & _).
  destruct (calculate_totals_and_densities_ok d g (size (identify_classes g)))
    as (t & Ht & _).
  destruct (count_subclasses_and_average_ok g (size (identify_classes g)))
    as (s & Hs & _).
  destruct (list_properties_by_individual_graph_ok g) as (im & Him & _).
  destruct (extract_textual_metrics_ok g) as (tm & Htm).
  exists d, t, s, im, tm. eexists.
  repeat (split; [done|]).
  split.
  - unfold calculate_global_text_metrics. rewrite Hread. cbn. done.
  - unfold process_ttl_file_try, list_properties_by_concept,
      list_properties_by_individual, calculate_global_text_metrics.
    rewrite Hparse, Hread. cbn. rewrite Hd. cbn. rewrite Him. cbn.
    rewrite Ht. cbn. rewrite Hs. cbn. rewrite Htm. cbn. done.
Qed.

Lemma process_ttl_file_try_parse_raises file_path e :
  parse file_path = Raise e →
  process_ttl_file_try parse read_text findall_words lower file_path = Raise e.
Proof. intros H. unfold process_ttl_file_try. by rewrite H. Qed.

Lemma process_ttl_file_try_read_raises file_path g e :
  parse file_path = Ok g → read_text file_path = Raise e →
  process_ttl_file_try parse read_text findall_words lower file_path = Raise e.
Proof.
  intros Hparse Hread.
  destruct (list_properties_by_concept_graph_ok g) as (d & Hd & _).
  destruct (calculate_totals_and_densities_ok d g (size (identify_classes g)))
    as (t & Ht & _).
  destruct (count_subclasses_and_average_ok g (size (identify_classes g)))
    as (s & Hs & _).
  destruct (list_properties_by_individual_graph_ok g) as (im & Him & _).
  destruct (extract_textual_metrics_ok g) as (tm & Htm).
  unfold process_ttl_file_try, list_properties_by_concept,
    list_properties_by_individual, calculate_global_text_metrics.
  rewrite Hparse, Hread. cbn. rewrite Hd. cbn. rewrite Him. cbn.
  rewrite Ht. cbn. rewrite Hs. cbn. rewrite Htm. cbn. done.
Qed.

(** ** The batch *)

Abbreviation step := (main_step parse read_text findall_words lower).
Abbreviation outcome := (record_of parse read_text findall_words lower).

Lemma main_step_df st file_name :
  df (step st file_name) = (df st ++ option_list (outcome file_name))%list.
Proof.
  unfold main_step, record_of. destruct (endswith file_name ".ttl").
  - destruct (process_ttl_file _ _ _ _ _) as [printed [record|]]; simpl.
    + done.
    + by rewrite app_nil_r.
  - simpl. by rewrite app_nil_r.
Qed.

Lemma foldl_main_step_df st listing :
  df (foldl step st listing) = (df st ++ omap outcome listing)%list.
Proof.
  revert st. induction listing as [|f listing IH]; intros st; cbn [foldl].
  - simpl. by rewrite app_nil_r.
  - rewrite IH, main_step_df. cbn [omap list_omap].
    rewrite <- app_assoc. by destruct (outcome f).
Qed.

Lemma main_step_written st file_name :
  written (step st file_name) =
  match outcome file_name with
  | Some record => Some (df st ++ [record])%list
  | None => written st
  end.
Proof.
  unfold main_step, record_of. destruct (endswith file_name ".ttl"); [|done].
  by destruct (process_ttl_file _ _ _ _ _) as [printed [record|]].
Qed.

Lemma main_step_stdout_mono st file_name line :
  line ∈ stdout st → line ∈ stdout (step st file_name).
Proof.
  intros Hin. unfold main_step, print.
  destruct (endswith file_name ".ttl"); [|done].
  destruct (process_ttl_file _ _ _ _ _) as [printed [record|]]; simpl;
    rewrite !elem_of_app; auto.
Qed.

Lemma foldl_main_step_stdout_mono st listing line :
  line ∈ stdout st → line ∈ stdout (foldl step st listing).
Proof.
  revert st. induction listing as [|f listing IH]; intros st Hin; [done|].
  cbn [foldl]. by apply IH, main_step_stdout_mono.
Qed.

Lemma main_step_stdout st file_name line :
  endswith file_name ".ttl" →
  line = "Processing file: " ++ file_name
  ∨ line ∈ (process_ttl_file parse read_text findall_words lower
              (path_join folder_path file_name)).1 →
  line ∈ stdout (step st file_name).
Proof.
  intros He%Is_true_true Hline. unfold main_step, print. rewrite He.
  destruct (process_ttl_file _ _ _ _ _) as [printed [record|]]; simpl in *;
    rewrite !elem_of_app, ?list_elem_of_singleton; destruct Hline; auto.
Qed.

Lemma foldl_main_step_stdout st listing file_name line :
  file_name ∈ listing → endswith file_name ".ttl" →
  line = "Processing file: " ++ file_name
  ∨ line ∈ (process_ttl_file parse read_text findall_words lower
              (path_join folder_path file_name)).1 →
  line ∈ stdout (foldl step st listing).
Proof.
  revert st. induction listing as [|f listing IH]; intros st Hin He Hline.
  - by apply elem_of_nil in Hin.
  - cbn [foldl]. apply elem_of_cons in Hin as [<-|Hin].
    + by apply foldl_main_step_stdout_mono, main_step_stdout.
    + by apply IH.
Qed.

End EngineFacts.

(** * Properties of the specification *)

(** ** Classes *)

(** C1, as the code has it: among the explicit rules the last one that
    matches decides, so a resource outside the blank nodes and the
    meta-vocabulary set is [explicit_rdf] when declared [rdf:Class], else
    [explicit_rdfs] when declared [rdfs:Class], else [explicit_owl] when
    declared [owl:Class]; only a resource that none of the three rules
    classified can be [inferred], when it is the object of a type triple and
    outside the exclusion sets of rule 4. *)
Theorem identify_classes_last_explicit_rule_wins g R :
  identify_classes g !! R =
  if isinstance_BNode R || py_in R ADDITIONAL_EXCLUDES then None
  else if decide (typed_as g R RDF_CLASS) then Some explicit_rdf
  else if decide (typed_as g R RDFS.Class) then Some explicit_rdfs
  else if decide (typed_as g R OWL.Class) then Some explicit_owl
  else if decide (used_as_type g R ∧ skipped_type R = false) then Some inferred
  else None.
Proof.
  rewrite identify_classes_lookup.
  destruct (isinstance_BNode R); [done|]. cbn [orb].
  destruct (py_in R ADDITIONAL_EXCLUDES) eqn:Hx.
  - assert (R ∈ ADDITIONAL_EXCLUDES) by (apply py_in_spec; by rewrite Hx).
    assert (skipped_type R = true) as Hs.
    { unfold skipped_type. rewrite Hx. by rewrite orb_true_r. }
    rewrite !decide_False; [done|..]; try (by intros [? _]).
    intros [Hf _]. by rewrite Hs in Hf.
  - assert (R ∉ ADDITIONAL_EXCLUDES).
    { intros Hin%py_in_spec. by rewrite Hx in Hin. }
    repeat case_decide; try done; tauto.
Qed.

(** C1, the counterexample: the resource [ex:A] of [g_twice] is the subject
    of both [(A, type, owl:Class)] and [(A, type, rdfs:Class)]; first match
    wins makes it [explicit_owl], the code makes it [explicit_rdfs]. *)
Lemma first_match_wins_refuted :
  typed_as g_twice (ex "A") OWL.Class
  ∧ typed_as g_twice (ex "A") RDFS.Class
  ∧ spec_classification g_twice (ex "A") = Some explicit_owl
  ∧ identify_classes g_twice !! ex "A" = Some explicit_rdfs
  ∧ identify_classes g_twice !! ex "A" ≠ spec_classification g_twice (ex "A").
Proof.
  split; [by apply (bool_decide_unpack _); vm_compute|].
  split; [by apply (bool_decide_unpack _); vm_compute|].
  assert (spec_classification g_twice (ex "A") = Some explicit_owl) as Hs
    by (by vm_compute).
  assert (identify_classes g_twice !! ex "A" = Some explicit_rdfs) as Hc
    by (by vm_compute).
  rewrite Hs, Hc. by repeat split.
Qed.

(** C10: a resource of the meta-vocabulary set [rdfs:Class], [owl:Class],
    [rdf:Property] is absent from the mapping returned by
    [identify_classes], whatever triples declare it a class. *)
Theorem meta_vocabulary_never_class g R :
  R ∈ ADDITIONAL_EXCLUDES → identify_classes g !! R = None.
Proof.
  intros Hin. rewrite identify_classes_lookup.
  destruct (isinstance_BNode R); [done|].
  assert (skipped_type R = true) as Hs.
  { unfold skipped_type. apply py_in_spec, Is_true_true in Hin.
    rewrite Hin. by rewrite orb_true_r. }
  rewrite !decide_False; [done|..]; try (by intros [? _]).
  intros [Hf _]. by rewrite Hs in Hf.
Qed.

(** C5: no blank node is a key of the mapping of [identify_classes], nor a
    member of the set of individuals of [count_individuals], nor of the one
    of [list_properties_by_individual]. *)
Theorem blank_nodes_never_classified g b :
  identify_classes g !! BNode b = None
  ∧ (BNode b ∉ dom (identify_classes g))
  ∧ (BNode b ∉ individuals_counted g)
  ∧ (BNode b ∉ individuals_listed g).
Proof.
  assert (identify_classes g !! BNode b = None) as Hc
    by (by rewrite identify_classes_lookup).
  split; [done|]. split; [by apply not_elem_of_dom|].
  assert (BNode b ∉ individuals_counted g) as Hi.
  { intros Hin%individuals_counted_not_bnode. by apply Hin. }
  split; [done|]. by rewrite <- individuals_agree.
Qed.

(** ** Individuals *)

(** C8: for every graph the set of individuals built by [count_individuals]
    is the set built inside [list_properties_by_individual], so that the
    Total Individuals metric is the denominator of the densities by
    individual. *)
Theorem individual_procedures_agree g :
  individuals_counted g = individuals_listed g
  ∧ count_individuals g = size (individuals_listed g).
Proof.
  split; [apply individuals_agree|].
  unfold count_individuals. by rewrite individuals_agree.
Qed.

(** ** Properties *)

(** C3: for classes and for individuals, the lists stored for a subject are
    the buckets of the specification: of the triples of a classified
    subject, in the order of the graph, a predicate [rdfs:subClassOf] or
    [rdf:type] goes to neither list; otherwise a [URIRef] object sends the
    predicate to the object list and a literal to the data/annotation list
    in both modes, and a blank node to the data/annotation list for classes
    but to the object list for individuals. *)
Theorem property_classifier_buckets g s :
  (∃ d, list_properties_by_concept_graph g = Ok (d, identify_classes g)
        ∧ concept_props <$> d !! s =
          if decide (s ∈ dom (identify_classes g) ∧ s ∈ (subj <$> g))
          then Some (Props (spec_bucket_list ClassMode ObjectBucket s g)
                           (spec_bucket_list ClassMode DataBucket s g))
          else None)
  ∧ (∃ r, list_properties_by_individual_graph g = Ok r
          ∧ individual_properties r !! s =
            if decide (s ∈ individuals_listed g ∧ s ∈ (subj <$> g))
            then Some (Props (spec_bucket_list IndividualMode ObjectBucket s g)
                             (spec_bucket_list IndividualMode DataBucket s g))
            else None).
Proof.
  split.
  - destruct (list_properties_by_concept_graph_ok g) as (d & Hd & Hl).
    exists d. split; [done|]. rewrite Hl.
    destruct (decide (s ∈ dom (identify_classes g) ∧ s ∈ (subj <$> g)))
      as [[Hin _]|_]; [|done].
    apply elem_of_dom in Hin as [info ->]. done.
  - destruct (list_properties_by_individual_graph_ok g) as (r & Hr & Hl & _).
    exists r. by split.
Qed.

(** ** Counts *)

Lemma foldl_add_elem (A : gset term) l x :
  x ∈ foldl (λ (s : gset term) prop, {[prop]} ∪ s) A l ↔ x ∈ A ∨ x ∈ l.
Proof.
  revert A. induction l as [|p l IH]; intros A; cbn [foldl].
  - rewrite elem_of_nil. tauto.
  - rewrite IH, elem_of_union, elem_of_singleton, elem_of_cons. tauto.
Qed.

Lemma collect_step_elem vs (A B : gset term) x :
  (x ∈ (foldl collect_step (A, B) vs).1 ↔
   x ∈ A ∨ ∃ c, c ∈ vs ∧ x ∈ object_properties (concept_props c))
  ∧ (x ∈ (foldl collect_step (A, B) vs).2 ↔
     x ∈ B ∨ ∃ c, c ∈ vs ∧ x ∈ data_annotation_properties (concept_props c)).
Proof.
  revert A B. induction vs as [|c vs IH]; intros A B; cbn [foldl].
  - split; (split; [by left|]); intros [?|(c & Hc & _)]; try done;
      by apply elem_of_nil in Hc.
  - unfold collect_step at 2 4. cbn [fst snd].
    match goal with |- context [foldl collect_step (?A', ?B') vs] =>
      destruct (IH A' B') as [-> ->] end.
    rewrite foldl_add_elem, elem_of_union, elem_of_list_to_set.
    setoid_rewrite elem_of_cons. naive_solver.
Qed.

Lemma elem_of_values {V} (d : gmap term V) (v : V) :
  v ∈ values d ↔ ∃ k, d !! k = Some v.
Proof.
  unfold values. rewrite list_elem_of_fmap. split.
  - intros ([k v'] & -> & Hin). exists k. by apply elem_of_map_to_list.
  - intros [k Hk]. exists (k, v). split; [done|]. by apply elem_of_map_to_list.
Qed.

(** The four counts of [calculate_totals_and_densities]. *)
Lemma calculate_totals_and_densities_counts concept_properties g n_classes r :
  calculate_totals_and_densities concept_properties g n_classes = Ok r →
  total_object_properties r = sum_len object_properties concept_properties
  ∧ total_data_annotation_properties r =
      sum_len data_annotation_properties concept_properties
  ∧ (∃ O : gset term,
       (∀ p, p ∈ O ↔ ∃ s c, concept_properties !! s = Some c
                            ∧ p ∈ object_properties (concept_props c))
       ∧ total_object_properties_unique r = size O)
  ∧ (∃ D : gset term,
       (∀ p, p ∈ D ↔ ∃ s c, concept_properties !! s = Some c
                            ∧ p ∈ data_annotation_properties (concept_props c))
       ∧ total_data_annotation_properties_unique r = size D).
Proof.
  unfold calculate_totals_and_densities.
  pose proof (λ x, collect_step_elem (values concept_properties) ∅ ∅ x) as He.
  destruct (foldl collect_step (∅, ∅) (values concept_properties)) as [A B].
  cbn [fst snd] in He.
  set (to := sum_len object_properties concept_properties).
  set (td := sum_len data_annotation_properties concept_properties).
  destruct (div_if_positive_ok (to + td) n_classes) as (qp & -> & _).
  destruct (div_if_positive_ok to n_classes) as (qo & -> & _).
  destruct (div_if_positive_ok td n_classes) as (qd & -> & _).
  cbn. intros [= <-]. cbn. split; [done|]. split; [done|]. split.
  - exists A. split; [|done]. intros p. destruct (He p) as [-> _].
    setoid_rewrite elem_of_values. rewrite elem_of_empty. naive_solver.
  - exists B. split; [|done]. intros p. destruct (He p) as [_ ->].
    setoid_rewrite elem_of_values. rewrite elem_of_empty. naive_solver.
Qed.

(** ** Documents *)

Section Documents.

Variable parse : string → res graph.
Variable read_text : string → res string.
Variable findall_words : string → list string.
Variable lower : string → string.


Abbreviation run := (main parse read_text findall_words lower).
Abbreviation outcome := (record_of parse read_text findall_words lower).

Lemma process_ttl_file_record file_path g raw_text :
  parse file_path = Ok g → read_text file_path = Ok raw_text →
  ∃ d t s im tm gm,
    list_properties_by_concept_graph g = Ok (d, identify_classes g)
    ∧ calculate_totals_and_densities d g (size (identify_classes g)) = Ok t
    ∧ count_subclasses_and_average g (size (identify_classes g)) = Ok s
    ∧ list_properties_by_individual_graph g = Ok im
    ∧ process_ttl_file parse read_text findall_words lower file_path =
      ([], Some (assemble_record file_path g t s im tm gm)).
Proof.
  intros Hparse Hread.
  destruct (process_ttl_file_try_ok _ _ findall_words lower _ _ _ Hparse Hread)
    as (d & t & s & im & tm & gm & Hd & Ht & Hs & Him & _ & _ & Hr).
  exists d, t, s, im, tm, gm. repeat (split; [done|]).
  unfold process_ttl_file. by rewrite Hr.
Qed.

(** C2, as the code has it: a document that parses and can be read has a
    record whose Total Subclasses is the number of distinct textual forms
    of the subjects of its [rdfs:subClassOf] triples (the subclasses, not
    the targets), and whose Average Subclasses per Class is that number
    divided by Total Classes, [0] when there is no class. *)
Theorem total_subclasses_counts_subjects file_path g raw_text :
  parse file_path = Ok g → read_text file_path = Ok raw_text →
  ∃ r (X : gset string),
    process_ttl_file parse read_text findall_words lower file_path = ([], Some r)
    ∧ (∀ x, x ∈ X ↔ ∃ s o, Triple s RDFS.subClassOf o ∈ g ∧ x = str s)
    ∧ Total_Subclasses r = size X
    ∧ Average_Subclasses_per_Class r =
        if decide (Total_Classes r = 0%nat) then 0%Q
        else (inject_Z (Z.of_nat (Total_Subclasses r))
                / inject_Z (Z.of_nat (Total_Classes r)))%Q.
Proof.
  intros Hparse Hread.
  destruct (process_ttl_file_record _ _ _ Hparse Hread)
    as (d & t & s & im & tm & gm & _ & _ & Hs & _ & Hr).
  destruct (count_subclasses_and_average_ok g (size (identify_classes g)))
    as (s' & Hs' & Htot & _ & Hz & Hnz).
  rewrite Hs in Hs'. injection Hs' as <-.
  eexists. eexists. split; [exact Hr|]. cbn.
  split; [|split; [exact Htot|]].
  - intros x. rewrite elem_of_list_to_set, list_elem_of_fmap. split.
    + intros ([s0 p o] & -> & (Hg & _ & Hp%matches_Some & _)%elem_of_triples).
      simpl in *. subst. by exists s0, o.
    + intros (s0 & o & Hg & ->). exists (Triple s0 RDFS.subClassOf o).
      split; [done|]. apply elem_of_triples. rewrite !matches_Some.
      by repeat split.
  - case_decide; auto.
Qed.

(** C4: a document that parses and can be read has a record (no division
    fails), its seven ratios are non-negative, those by class and the
    average of subclasses are [0] when Total Classes is [0], those by
    individual are [0] when Total Individuals is [0]. *)
Theorem densities_defined_and_nonnegative file_path g raw_text :
  parse file_path = Ok g → read_text file_path = Ok raw_text →
  ∃ r,
    process_ttl_file parse read_text findall_words lower file_path = ([], Some r)
    ∧ (0 <= Property_Density_by_Class r)%Q
    ∧ (0 <= Object_Density_by_Class r)%Q
    ∧ (0 <= Data_Annotation_Density_by_Class r)%Q
    ∧ (0 <= Property_Density_by_Individual r)%Q
    ∧ (0 <= Object_Density_by_Individual r)%Q
    ∧ (0 <= Data_Annotation_Density_by_Individual r)%Q
    ∧ (0 <= Average_Subclasses_per_Class r)%Q
    ∧ (Total_Classes r = 0%nat →
       Property_Density_by_Class r = 0%Q
       ∧ Object_Density_by_Class r = 0%Q
       ∧ Data_Annotation_Density_by_Class r = 0%Q
       ∧ Average_Subclasses_per_Class r = 0%Q)
    ∧ (Total_Individuals r = 0%nat →
       Property_Density_by_Individual r = 0%Q
       ∧ Object_Density_by_Individual r = 0%Q
       ∧ Data_Annotation_Density_by_Individual r = 0%Q).
Proof.
  intros Hparse Hread.
  destruct (process_ttl_file_record _ _ _ Hparse Hread)
    as (d & t & s & im & tm & gm & _ & Ht & Hs & Him & Hr).
  destruct (calculate_totals_and_densities_ok d g (size (identify_classes g)))
    as (t' & Ht' & _ & _ & Hp & Ho & Hd & Hz).
  rewrite Ht in Ht'. injection Ht' as <-.
  destruct (count_subclasses_and_average_ok g (size (identify_classes g)))
    as (s' & Hs' & _ & Ha & Haz & _).
  rewrite Hs in Hs'. injection Hs' as <-.
  destruct (list_properties_by_individual_graph_ok g)
    as (im' & Him' & _ & _ & Hio & Hid & Hip & Hiz).
  rewrite Him in Him'. injection Him' as <-.
  eexists. split; [exact Hr|]. cbn.
  repeat (split; [done|]). split.
  - intros Hn. destruct (Hz Hn) as (? & ? & ?). auto.
  - intros Hn. unfold count_individuals in Hn. rewrite individuals_agree in Hn.
    destruct (Hiz Hn) as (? & ? & ?). auto.
Qed.

(** C7: [calculate_totals_and_densities] returns, for any dict of
    property lists, totals that are the sums of the lengths of the lists
    and unique counts that are the numbers of distinct predicates over all
    the lists; and in the record of a document that parses and can be
    read, each unique count is at most the total. *)
Theorem unique_counts_at_most_totals :
  (∀ concept_properties g n_classes,
     ∃ r (O D : gset term),
       calculate_totals_and_densities concept_properties g n_classes = Ok r
       ∧ total_object_properties r = sum_len object_properties concept_properties
       ∧ total_data_annotation_properties r =
           sum_len data_annotation_properties concept_properties
       ∧ (∀ p, p ∈ O ↔ ∃ s c, concept_properties !! s = Some c
                              ∧ p ∈ object_properties (concept_props c))
       ∧ total_object_properties_unique r = size O
       ∧ (∀ p, p ∈ D ↔ ∃ s c, concept_properties !! s = Some c
                              ∧ p ∈ data_annotation_properties (concept_props c))
       ∧ total_data_annotation_properties_unique r = size D
       ∧ (total_object_properties_unique r ≤ total_object_properties r)%nat
       ∧ (total_data_annotation_properties_unique r
            ≤ total_data_annotation_properties r)%nat)
  ∧ (∀ file_path g raw_text,
       parse file_path = Ok g → read_text file_path = Ok raw_text →
       ∃ r, process_ttl_file parse read_text findall_words lower file_path
              = ([], Some r)
            ∧ (Unique_Object_Properties r ≤ Total_Object_Properties r)%nat
            ∧ (Unique_Data_Annotation_Properties r
                 ≤ Total_Data_Annotation_Properties r)%nat).
Proof.
  split.
  - intros cp g n.
    destruct (calculate_totals_and_densities_ok cp g n)
      as (r & Hr & Ho & Hd & _).
    destruct (calculate_totals_and_densities_counts _ _ _ _ Hr)
      as (Hto & Htd & (O & HO & HsO) & (D & HD & HsD)).
    by exists r, O, D.
  - intros file_path g raw_text Hparse Hread.
    destruct (process_ttl_file_record _ _ _ Hparse Hread)
      as (d & t & s & im & tm & gm & _ & Ht & _ & _ & Hr).
    destruct (calculate_totals_and_densities_ok d g (size (identify_classes g)))
      as (t' & Ht' & Ho & Hd & _).
    rewrite Ht in Ht'. injection Ht' as <-.
    eexists. split; [exact Hr|]. by cbn.
Qed.

(** C9: in the record of a document that parses and can be read, Property
    Density by Individual is the sum of Object Density by Individual and
    Data/Annotation Density by Individual; with no individual the three
    are [0]. *)
Theorem individual_density_is_sum file_path g raw_text :
  parse file_path = Ok g → read_text file_path = Ok raw_text →
  ∃ r,
    process_ttl_file parse read_text findall_words lower file_path = ([], Some r)
    ∧ Property_Density_by_Individual r =
        (Object_Density_by_Individual r
           + Data_Annotation_Density_by_Individual r)%Q
    ∧ (Total_Individuals r = 0%nat →
       Property_Density_by_Individual r = 0%Q
       ∧ Object_Density_by_Individual r = 0%Q
       ∧ Data_Annotation_Density_by_Individual r = 0%Q).
Proof.
  intros Hparse Hread.
  destruct (process_ttl_file_record _ _ _ Hparse Hread)
    as (d & t & s & im & tm & gm & _ & _ & _ & Him & Hr).
  destruct (list_properties_by_individual_graph_ok g)
    as (im' & Him' & _ & Hsum & _ & _ & _ & Hiz).
  rewrite Him in Him'. injection Him' as <-.
  eexists. split; [exact Hr|]. cbn. split; [done|].
  intros Hn. unfold count_individuals in Hn. rewrite individuals_agree in Hn.
  destruct (Hiz Hn) as (? & ? & ?). auto.
Qed.

(** ** The batch *)

Lemma foldl_main_step_written st listing :
  written (foldl (main_step parse read_text findall_words lower) st listing) =
  match omap outcome listing with
  | [] => written st
  | records => Some (df st ++ records)%list
  end.
Proof.
  revert st. induction listing as [|f listing IH]; intros st; [done|].
  cbn [foldl omap list_omap]. rewrite IH, main_step_written, main_step_df.
  destruct (outcome f) as [record|]; cbn [option_list].
  - destruct (omap outcome listing); [done|]. by rewrite <- app_assoc.
  - by rewrite app_nil_r.
Qed.

Lemma omap_record_of_skip listing1 file_name listing2 :
  outcome file_name = None →
  omap outcome (listing1 ++ file_name :: listing2)%list =
  omap outcome (listing1 ++ listing2)%list.
Proof.
  intros Hnone. rewrite !omap_app. cbn [omap list_omap]. by rewrite Hnone.
Qed.

(** C6: when the [try] block raises [e] on a listed document,
    [process_ttl_file] returns [None] after printing the error with the
    path of the file; the table and the output file are what they would
    be without the document; the error line is in the output; every later
    document is still processed, its record added when it has one.  The
    [try] block raises whenever the parser or the reading of the file does. *)
Theorem failed_document_is_skipped listing1 file_name listing2 e :
  endswith file_name ".ttl" →
  process_ttl_file_try parse read_text findall_words lower
    (path_join folder_path file_name) = Raise e →
  process_ttl_file parse read_text findall_words lower
    (path_join folder_path file_name) =
    (["Error processing file " ++ path_join folder_path file_name ++ ": "
        ++ exn_str e], None)
  ∧ df (run (listing1 ++ file_name :: listing2)%list) =
      omap outcome (listing1 ++ listing2)%list
  ∧ df (run (listing1 ++ file_name :: listing2)%list) =
      df (run (listing1 ++ listing2)%list)
  ∧ written (run (listing1 ++ file_name :: listing2)%list) =
      written (run (listing1 ++ listing2)%list)
  ∧ ("Error processing file " ++ path_join folder_path file_name ++ ": "
       ++ exn_str e) ∈ stdout (run (listing1 ++ file_name :: listing2)%list)
  ∧ (∀ later, later ∈ listing2 → endswith later ".ttl" →
       ("Processing file: " ++ later)
         ∈ stdout (run (listing1 ++ file_name :: listing2)%list)
       ∧ ∀ record, outcome later = Some record →
           record ∈ df (run (listing1 ++ file_name :: listing2)%list))
  ∧ (∀ file_path e',
       parse file_path = Raise e'
       ∨ (∃ g, parse file_path = Ok g ∧ read_text file_path = Raise e') →
       process_ttl_file_try parse read_text findall_words lower file_path
       = Raise e').
Proof.
  intros Hext Hraise.
  assert (process_ttl_file parse read_text findall_words lower
            (path_join folder_path file_name) =
    (["Error processing file " ++ path_join folder_path file_name ++ ": "
        ++ exn_str e], None)) as Hproc.
  { unfold process_ttl_file. by rewrite Hraise. }
  assert (outcome file_name = None) as Hnone.
  { unfold record_of. rewrite Hproc. by destruct (endswith file_name ".ttl"). }
  split; [done|]. unfold main. cbn [df written stdout].
  rewrite !foldl_main_step_df, !foldl_main_step_written.
  rewrite (omap_record_of_skip _ _ _ Hnone). cbn [df written].
  repeat (split; [done|]). split; [|split].
  - unfold print. apply elem_of_app. left.
    apply (foldl_main_step_stdout _ _ _ _ _ _ file_name).
    + apply elem_of_app. right. by left.
    + done.
    + right. rewrite Hproc. by left.
  - intros later Hin Hl. split.
    + unfold print. apply elem_of_app. left.
      apply (foldl_main_step_stdout _ _ _ _ _ _ later).
      * apply elem_of_app. right. by right.
      * done.
      * by left.
    + intros record Hrec. apply list_elem_of_omap. exists later.
      split; [|done]. apply elem_of_app. by right.
  - intros file_path e' [Hp|(g & Hp & Hr)].
    + by apply process_ttl_file_try_parse_raises.
    + by eapply process_ttl_file_try_read_raises.
Qed.

End Documents.

(** * The sample documents *)

(** C2, the counterexample: in [g_pets] two classes are subclasses of one
    target; the record has Total Subclasses [2], the number of distinct
    targets is [1]. *)
Lemma total_subclasses_not_targets :
  ∃ r, process_ttl_file sample_parse sample_read_text sample_findall_words
         sample_lower "./ttl/ttl/pets.ttl" = ([], Some r)
       ∧ Total_Subclasses r = 2%nat
       ∧ distinct_subclass_targets g_pets = 1%nat
       ∧ Total_Subclasses r ≠ distinct_subclass_targets g_pets.
Proof.
  destruct (process_ttl_file_record sample_parse sample_read_text
              sample_findall_words sample_lower "./ttl/ttl/pets.ttl" g_pets
              "ex:Cat a owl:Class ." eq_refl eq_refl)
    as (d & t & s & im & tm & gm & _ & _ & Hs & _ & Hr).
  eexists. split; [exact Hr|]. cbn.
  assert (total_subclasses s = 2%nat) as ->.
  { destruct (count_subclasses_and_average_ok g_pets (size (identify_classes g_pets)))
      as (s' & Hs' & Htot & _).
    rewrite Hs in Hs'. injection Hs' as <-. rewrite Htot. by vm_compute. }
  assert (distinct_subclass_targets g_pets = 1%nat) as -> by (by vm_compute).
  by repeat split.
Qed.

(** C10 on [g_meta], where [owl:Class] is declared an [owl:Class]. *)
Lemma meta_vocabulary_never_class_witness :
  typed_as g_meta OWL.Class OWL.Class
  ∧ identify_classes g_meta !! OWL.Class = None.
Proof.
  split.
  - apply (bool_decide_unpack _). vm_compute. exact I.
  - apply (meta_vocabulary_never_class g_meta OWL.Class).
    apply (bool_decide_unpack _). vm_compute. exact I.
Defined.

(** C2 (as the code has it) on the sample directory. *)
Lemma total_subclasses_counts_subjects_witness :
  ∃ r (X : gset string),
    process_ttl_file sample_parse sample_read_text sample_findall_words
      sample_lower "./ttl/ttl/pets.ttl" = ([], Some r)
    ∧ (∀ x, x ∈ X ↔ ∃ s o, Triple s RDFS.subClassOf o ∈ g_pets ∧ x = str s)
    ∧ Total_Subclasses r = size X
    ∧ Average_Subclasses_per_Class r =
        if decide (Total_Classes r = 0%nat) then 0%Q
        else (inject_Z (Z.of_nat (Total_Subclasses r))
                / inject_Z (Z.of_nat (Total_Classes r)))%Q.
Proof.
  apply (total_subclasses_counts_subjects sample_parse sample_read_text
           sample_findall_words sample_lower "./ttl/ttl/pets.ttl" g_pets
           "ex:Cat a owl:Class .");
    reflexivity.
Defined.

(** C4 on the sample directory. *)
Lemma densities_defined_and_nonnegative_witness :
  ∃ r,
    process_ttl_file sample_parse sample_read_text sample_findall_words
      sample_lower "./ttl/ttl/pets.ttl" = ([], Some r)
    ∧ (0 <= Property_Density_by_Class r)%Q
    ∧ (0 <= Object_Density_by_Class r)%Q
    ∧ (0 <= Data_Annotation_Density_by_Class r)%Q
    ∧ (0 <= Property_Density_by_Individual r)%Q
    ∧ (0 <= Object_Density_by_Individual r)%Q
    ∧ (0 <= Data_Annotation_Density_by_Individual r)%Q
    ∧ (0 <= Average_Subclasses_per_Class r)%Q
    ∧ (Total_Classes r = 0%nat →
       Property_Density_by_Class r = 0%Q
       ∧ Object_Density_by_Class r = 0%Q
       ∧ Data_Annotation_Density_by_Class r = 0%Q
       ∧ Average_Subclasses_per_Class r = 0%Q)
    ∧ (Total_Individuals r = 0%nat →
       Property_Density_by_Individual r = 0%Q
       ∧ Object_Density_by_Individual r = 0%Q
       ∧ Data_Annotation_Density_by_Individual r = 0%Q).
Proof.
  apply (densities_defined_and_nonnegative sample_parse sample_read_text
           sample_findall_words sample_lower "./ttl/ttl/pets.ttl" g_pets
           "ex:Cat a owl:Class .");
    reflexivity.
Defined.

(** C7 on the sample directory. *)
Lemma unique_counts_at_most_totals_witness :
  ∃ r,
    process_ttl_file sample_parse sample_read_text sample_findall_words
      sample_lower "./ttl/ttl/pets.ttl" = ([], Some r)
    ∧ (Unique_Object_Properties r ≤ Total_Object_Properties r)%nat
    ∧ (Unique_Data_Annotation_Properties r
         ≤ Total_Data_Annotation_Properties r)%nat.
Proof.
  apply (proj2 (unique_counts_at_most_totals sample_parse sample_read_text
                  sample_findall_words sample_lower)
           "./ttl/ttl/pets.ttl" g_pets "ex:Cat a owl:Class .");
    reflexivity.
Defined.

(** C9 on the sample directory. *)
Lemma individual_density_is_sum_witness :
  ∃ r,
    process_ttl_file sample_parse sample_read_text sample_findall_words
      sample_lower "./ttl/ttl/pets.ttl" = ([], Some r)
    ∧ Property_Density_by_Individual r =
        (Object_Density_by_Individual r
           + Data_Annotation_Density_by_Individual r)%Q
    ∧ (Total_Individuals r = 0%nat →
       Property_Density_by_Individual r = 0%Q
       ∧ Object_Density_by_Individual r = 0%Q
       ∧ Data_Annotation_Density_by_Individual r = 0%Q).
Proof.
  apply (individual_density_is_sum sample_parse sample_read_text
           sample_findall_words sample_lower "./ttl/ttl/pets.ttl" g_pets
           "ex:Cat a owl:Class .");
    reflexivity.
Defined.

(** C6 on the sample directory: [broken.ttl] does not parse, [pets.ttl]
    comes after it. *)
Lemma failed_document_is_skipped_witness :
  process_ttl_file sample_parse sample_read_text sample_findall_words
    sample_lower "./ttl/ttl/broken.ttl" =
    (["Error processing file ./ttl/ttl/broken.ttl: Bad syntax at line 1"], None)
  ∧ df (main sample_parse sample_read_text sample_findall_words sample_lower
          ["broken.ttl"; "pets.ttl"; "notes.txt"]) =
      df (main sample_parse sample_read_text sample_findall_words sample_lower
            ["pets.ttl"; "notes.txt"])
  ∧ "Processing file: pets.ttl"
      ∈ stdout (main sample_parse sample_read_text sample_findall_words
                  sample_lower ["broken.ttl"; "pets.ttl"; "notes.txt"]).
Proof.
  destruct (failed_document_is_skipped sample_parse sample_read_text
              sample_findall_words sample_lower
              [] "broken.ttl" ["pets.ttl"; "notes.txt"]
              (External "Bad syntax at line 1"))
    as (Hnone & _ & Hdf & _ & _ & Hlater & _).
  - vm_compute. exact I.
  - vm_compute. reflexivity.
  - split; [exact Hnone|]. split; [exact Hdf|].
    apply (Hlater "pets.ttl").
    + apply (bool_decide_unpack _). vm_compute. exact I.
    + vm_compute. exact I.
Defined.
